(** * diagnose-wi: a shallow embedding of [cmd/diagnose-wi/main.go]

    The program is a linear chain of look-ups against the Kubernetes API
    server, the GKE API and Cloud IAM, glued together by string formatting
    and two small decision loops.  Go strings are byte sequences and are
    modelled by [string]; the allow-list [ksaRoles] and the annotation map of
    a service account are finite sets and maps; every external call is an
    oracle of a [World] and is recorded in a trace of [Event]s. *)

From stdpp Require Import base strings list gmap.
From Stdlib Require Import Ascii String.

Local Open Scope string_scope.

(* Let [simpl] compute the concatenation of string literals. *)
#[local] Arguments String.append !s1 s2 : simpl nomatch.

(** ** Go values *)

(** An [error] value: its dynamic type and the text of its [Error()] method. *)
Record error := mkError { errType : string; errText : string }.

(** What a Go call that yields [(value, err)] hands back from a library. *)
Inductive Reply (A : Type) : Type :=
| Ok (a : A)
| Err (e : error).
Arguments Ok {A} a.
Arguments Err {A} e.

(** Run-time panics the program can raise. *)
Inductive PanicValue : Type :=
| IndexOutOfRange (index len : nat)
| NilDereference
| OrDie (e : error).

(** How a computation ends: it returns, [log.Fatal] stops the process with a
    message, or the goroutine panics. *)
Inductive Res (A : Type) : Type :=
| Ret (a : A)
| Fatal (msg : string)
| Panicked (p : PanicValue).
Arguments Ret {A} a.
Arguments Fatal {A} msg.
Arguments Panicked {A} p.

(** ** package strings *)

Module strings.

(** [HasPrefix s p]: does [s] begin with [p]? *)
Fixpoint HasPrefix (s p : string) {struct p} : bool :=
  match p with
  | EmptyString => true
  | String b p' =>
      match s with
      | EmptyString => false
      | String c s' => if Ascii.eqb c b then HasPrefix s' p' else false
      end
  end.

(** Pieces of [s] between the non-overlapping occurrences of a non-empty
    [sep], scanning left to right; [skip] counts the bytes of a separator
    that was matched and is still being stepped over. *)
Fixpoint genSplit (sep : string) (skip : nat) (s : string) : list string :=
  match s with
  | EmptyString => [EmptyString]
  | String c s' =>
      match skip with
      | S k => genSplit sep k s'
      | O =>
          if HasPrefix s sep
          then EmptyString :: genSplit sep (String.length sep - 1) s'
          else match genSplit sep 0 s' with
               | piece :: rest => String c piece :: rest
               | [] => [String c EmptyString]
               end
      end
  end.

(** The one-byte pieces of [s] (Go cuts at UTF-8 sequences; the two agree
    on ASCII text, and this program never passes an empty separator). *)
Fixpoint explode (s : string) : list string :=
  match s with
  | EmptyString => []
  | String c s' => String c EmptyString :: explode s'
  end.

(** [strings.Split(s, sep)]. *)
Definition Split (s sep : string) : list string :=
  match sep with
  | EmptyString => explode s
  | String _ _ => genSplit sep 0 s
  end.

(** [strings.Join(elems, sep)]. *)
Fixpoint Join (elems : list string) (sep : string) : string :=
  match elems with
  | [] => EmptyString
  | [e] => e
  | e :: rest => e +:+ sep +:+ Join rest sep
  end.

End strings.

Arguments strings.Split : simpl never.

(** Indexing a slice, [sp[i]], with Go's bounds check. *)
Definition index_slice {A} (sp : list A) (i : nat) : Res A :=
  match sp !! i with
  | Some x => Ret x
  | None => Panicked (IndexOutOfRange i (List.length sp))
  end.

(** ** Library functions taken as given

    [strconv.Quote] (the [%q] verb), [strings.TrimSpace] and
    [filepath.Join] are Unicode- and platform-aware; the rendering of a
    value under a verb it does not support prints its in-memory
    representation.  None of them is decided by this program, so they are
    an interface. *)
Class GoLib := {
  Quote : string -> string;
  TrimSpace : string -> string;
  filepath_Join : list string -> string;
  GoSyntax : error -> string
}.

(** ** package fmt *)

Inductive Arg : Type :=
| AString (s : string)
| AStrings (l : list string)
| AError (e : error).

Module fmt.
Section WithLib.
Context `{GoLib}.

Definition verb_is (v : ascii) (c : string) : bool :=
  String.eqb (String v EmptyString) c.

Definition badVerb (verb : ascii) (type value : string) : string :=
  "%!" +:+ String verb EmptyString +:+ "(" +:+ type +:+ "=" +:+ value +:+ ")".

Definition fmtString (verb : ascii) (s : string) : string :=
  if verb_is verb "s" || verb_is verb "v" then s
  else if verb_is verb "q" then Quote s
  else badVerb verb "string" s.

(** One operand under one verb; [wrapErrs] is set by [Errorf] only and
    makes [%w] behave as [%v] on an error. *)
Definition printArg (wrapErrs : bool) (verb : ascii) (a : Arg) : string :=
  match a with
  | AString s => fmtString verb s
  | AStrings l => "[" +:+ strings.Join (map (fmtString verb) l) " " +:+ "]"
  | AError e =>
      if verb_is verb "w"
      then if wrapErrs then errText e else badVerb verb (errType e) (GoSyntax e)
      else if verb_is verb "s" || verb_is verb "v" || verb_is verb "q"
           then fmtString verb (errText e)
           else badVerb verb (errType e) (GoSyntax e)
  end.

Definition typeOf (a : Arg) : string :=
  match a with
  | AString _ => "string"
  | AStrings _ => "[]string"
  | AError e => errType e
  end.

Fixpoint extras (args : list Arg) : string :=
  match args with
  | [] => EmptyString
  | [a] => typeOf a +:+ "=" +:+ printArg false "v" a
  | a :: rest => typeOf a +:+ "=" +:+ printArg false "v" a +:+ ", " +:+ extras rest
  end.

(** The formatting loop of [doPrintf] for verbs without flags or width,
    which is all this program uses. *)
Fixpoint doPrintf (wrapErrs : bool) (format : string) (args : list Arg) : string :=
  match format with
  | EmptyString =>
      match args with
      | [] => EmptyString
      | _ :: _ => "%!(EXTRA " +:+ extras args +:+ ")"
      end
  | String c format' =>
      if verb_is c "%"
      then match format' with
           | EmptyString => "%!(NOVERB)"
           | String verb format'' =>
               if verb_is verb "%"
               then String "%" (doPrintf wrapErrs format'' args)
               else match args with
                    | [] => "%!" +:+ String verb EmptyString +:+ "(MISSING)"
                              +:+ doPrintf wrapErrs format'' []
                    | a :: args' =>
                        printArg wrapErrs verb a +:+ doPrintf wrapErrs format'' args'
                    end
           end
      else String c (doPrintf wrapErrs format' args)
  end.

Definition Sprintf (format : string) (args : list Arg) : string :=
  doPrintf false format args.

(** Does [%w] meet an error operand?  Then [Errorf] wraps it. *)
Fixpoint wrapsError (format : string) (args : list Arg) : bool :=
  match format with
  | EmptyString => false
  | String c format' =>
      if verb_is c "%"
      then match format' with
           | EmptyString => false
           | String verb format'' =>
               if verb_is verb "%" then wrapsError format'' args
               else match args with
                    | [] => false
                    | a :: args' =>
                        match a with
                        | AError _ => verb_is verb "w" || wrapsError format'' args'
                        | _ => wrapsError format'' args'
                        end
                    end
           end
      else wrapsError format' args
  end.

(** [fmt.Errorf]: the text is the formatted string; the result wraps the
    operand of [%w] when there is one. *)
Definition Errorf (format : string) (args : list Arg) : error :=
  {| errType := if wrapsError format args
                then "*fmt.wrapError" else "*errors.errorString";
     errText := doPrintf true format args |}.

(** [fmt.Sprint]: operands under [%v]; a space goes between two operands
    when neither is a string. *)
Fixpoint Sprint (args : list Arg) : string :=
  match args with
  | [] => EmptyString
  | a :: rest =>
      printArg false "v" a +:+
      match a, rest with
      | AString _, _ => Sprint rest
      | _, AString _ :: _ => Sprint rest
      | _, [] => EmptyString
      | _, _ :: _ => " " +:+ Sprint rest
      end
  end.

End WithLib.
End fmt.

(** ** The outside world *)

(** One binding of an IAM policy and the policy itself, as the IAM and
    Resource Manager clients decode them. *)
Record Binding := mkBinding { Role : string; Members : list string }.
Record Policy := mkPolicy { Bindings : list Binding }.

(** A [*rest.Config]; the program only passes it on. *)
Record Config := mkConfig { Host : string }.

(** The part of a GKE cluster the program reads:
    [WorkloadIdentityConfig] is a pointer and may be nil. *)
Record WorkloadIdentityConfig := mkWIConfig { WorkloadPool : string }.
Record Cluster := mkCluster { WorkloadIdentityConfig_ : option WorkloadIdentityConfig }.

(** The command-line flags after [flag.Parse]. *)
Record Flags := mkFlags {
  serverFlag : string;
  kubeconfigFlag : string;
  ksaFlag : string;
  nsFlag : string;
  podFlag : string;
  projectFlag : string;
  clusterProjectFlag : string;
  clusterLocationFlag : string;
  clusterNameFlag : string
}.

(** Answers of everything the program asks outside itself. *)
Record World := mkWorld {
  user_Current : Reply string;                          (* the home directory *)
  BuildConfigFromFlags : string -> string -> Reply Config;
  InClusterConfig : Reply Config;
  NewForConfig : Config -> option error;
  Pods_Get : Config -> string -> string -> Reply string;  (* Spec.ServiceAccountName *)
  ServiceAccounts_Get : Config -> string -> string -> Reply (gmap string string);
  os_Open : string -> option error;
  Decode_CurrentContext : string -> Reply string;
  container_NewService : option error;
  Clusters_Get : string -> Reply Cluster;
  iam_NewService : option error;
  ServiceAccounts_GetIamPolicy : string -> Reply Policy;
  cloudresourcemanager_NewService : option error;
  Projects_GetIamPolicy : string -> Reply Policy;
  exec_Output : list string -> Reply string
}.

(** What the program does that can be seen from outside, in order. *)
Inductive Event : Type :=
| EvUserCurrent
| EvBuildConfigFromFlags (server kubeconfig : string)
| EvInClusterConfig
| EvNewForConfig (cfg : Config)
| EvPodsGet (ns name : string)
| EvServiceAccountsGet (ns name : string)
| EvOpen (path : string)
| EvDecode (path : string)
| EvContainerNewService
| EvClustersGet (name : string)
| EvIamNewService
| EvGetServiceAccountIamPolicy (resource : string)
| EvCloudResourceManagerNewService
| EvGetProjectIamPolicy (project : string)
| EvExec (argv : list string)
| EvPrint (out : string).

#[global] Instance Config_eq_dec : EqDecision Config.
Proof. solve_decision. Defined.

#[global] Instance Event_eq_dec : EqDecision Event.
Proof. solve_decision. Defined.

(** The calls that go to a remote API. *)
Definition is_network_call (e : Event) : bool :=
  match e with
  | EvPodsGet _ _ | EvServiceAccountsGet _ _ | EvClustersGet _
  | EvGetServiceAccountIamPolicy _ | EvGetProjectIamPolicy _ => true
  | _ => false
  end.

(** ** The monad of the program: a trace of events and an outcome *)

Definition M (A : Type) : Type := list Event * Res A.

Definition ret {A} (a : A) : M A := ([], Ret a).

Definition bind {A B} (m : M A) (k : A -> M B) : M B :=
  match m with
  | (t, Ret a) => let '(t', r) := k a in ((t ++ t')%list, r)
  | (t, Fatal msg) => (t, Fatal msg)
  | (t, Panicked p) => (t, Panicked p)
  end.

(** An outside call: it shows in the trace and hands back the world's answer. *)
Definition call {A} (e : Event) (answer : A) : M A := ([e], Ret answer).

(** A pure step that may panic. *)
Definition lift {A} (r : Res A) : M A := ([], r).

Definition panic {A} (p : PanicValue) : M A := ([], Panicked p).

Notation "x <- m ;; k" := (bind m (fun x => k))
  (at level 100, m at next level, right associativity).

(** ** The program *)

Definition wiGSAAnnotation : string := "iam.gke.io/gcp-service-account".

Definition ksaRoles : gset string :=
  {[ "roles/iam.workloadIdentityUser";
     "roles/iam.serviceAccountTokenCreator";
     "roles/editor";
     "roles/owner" ]}.

Section Diagnose.
Context `{GoLib} (W : World).

(** [log.Fatal] and [log.Fatalf]: the message, then [os.Exit(1)]. *)
Definition log_Fatal {A} (args : list Arg) : M A := ([], Fatal (fmt.Sprint args)).
Definition log_Fatalf {A} (format : string) (args : list Arg) : M A :=
  ([], Fatal (fmt.Sprintf format args)).

Definition getPodKSA (client : Config) (ns podName : string)
  : M (string * option error) :=
  pod <- call (EvPodsGet ns podName) (Pods_Get W client ns podName) ;;
  match pod with
  | Err err => ret ("", Some err)
  | Ok serviceAccountName => ret (serviceAccountName, None)
  end.

Definition getKSAsWIAnotation (client : Config) (ns ksaName : string)
  : M (string * option error) :=
  ksa <- call (EvServiceAccountsGet ns ksaName) (ServiceAccounts_Get W client ns ksaName) ;;
  match ksa with
  | Err err => ret ("", Some err)
  | Ok annotations =>
      match annotations !! wiGSAAnnotation with
      | None =>
          ret ("", Some (fmt.Errorf "ksa does not have the WI annotation, %q"
                           [AString wiGSAAnnotation]))
      | Some gsa => ret (gsa, None)
      end
  end.

Definition getGSAAPIResource (gsaEmail : string) : M string :=
  let sp := strings.Split gsaEmail "@" in
  domain <- lift (index_slice sp 1) ;;
  let sp := strings.Split domain "." in
  proj <- lift (index_slice sp 0) ;;
  ret (fmt.Sprintf "projects/%s/serviceAccounts/%s" [AString proj; AString gsaEmail]).

Definition ksaIAMPolicyMember (wiPool ns ksaName : string) : string :=
  fmt.Sprintf "serviceAccount:%s[%s/%s]" [AString wiPool; AString ns; AString ksaName].

Definition getClusterAPIName (project location name : string) : string :=
  fmt.Sprintf "projects/%s/locations/%s/clusters/%s"
    [AString project; AString location; AString name].

Definition gsaIAMPolicyMember (gsaEmail : string) : string :=
  fmt.Sprintf "serviceAccount:%s" [AString gsaEmail].

(** The inner loop of [ksaHasAccessToGSA] over one binding's members:
    [true] when it reaches [return true, nil]. *)
Fixpoint ksaMemberLoop (ksaMember role : string) (members : list string) : bool :=
  match members with
  | [] => false
  | member :: members' =>
      if String.eqb member ksaMember
      then if bool_decide (role ∈ ksaRoles) then true
           else ksaMemberLoop ksaMember role members'
      else ksaMemberLoop ksaMember role members'
  end.

(** The outer loop over the bindings. *)
Fixpoint ksaBindingLoop (ksaMember : string) (bindings : list Binding) : bool :=
  match bindings with
  | [] => false
  | binding :: bindings' =>
      if ksaMemberLoop ksaMember (Role binding) (Members binding) then true
      else ksaBindingLoop ksaMember bindings'
  end.

Definition ksaHasAccessToGSA (wiPool ns ksaName gsaEmail : string)
  : M (bool * option error) :=
  err <- call EvIamNewService (iam_NewService W) ;;
  match err with
  | Some err => ret (false, Some (fmt.Errorf "creating IAM.Service: %w" [AError err]))
  | None =>
      gsaAPIResource <- getGSAAPIResource gsaEmail ;;
      gsaPolicy <- call (EvGetServiceAccountIamPolicy gsaAPIResource)
                        (ServiceAccounts_GetIamPolicy W gsaAPIResource) ;;
      match gsaPolicy with
      | Err err =>
          ret (false, Some (fmt.Errorf "getting GSA %q IAMPolicy: %w"
                              [AString gsaAPIResource; AError err]))
      | Ok gsaPolicy =>
          let ksaMember := ksaIAMPolicyMember wiPool ns ksaName in
          if ksaBindingLoop ksaMember (Bindings gsaPolicy)
          then ret (true, None)
          else ret (false, None)
      end
  end.

Definition getWIPool (clusterAPIName : string) : M (string * option error) :=
  err <- call EvContainerNewService (container_NewService W) ;;
  match err with
  | Some err => ret ("", Some (fmt.Errorf "creating GKE.Service: %w" [AError err]))
  | None =>
      cluster <- call (EvClustersGet clusterAPIName) (Clusters_Get W clusterAPIName) ;;
      match cluster with
      | Err err =>
          ret ("", Some (fmt.Errorf "getting GKE Cluster %q: %w"
                           [AString clusterAPIName; AError err]))
      | Ok cluster =>
          match WorkloadIdentityConfig_ cluster with
          | None => panic NilDereference
          | Some wic => ret (WorkloadPool wic, None)
          end
      end
  end.

(** The inner loop of [getGSAsRolesOnProject]: append the role at the
    first member that matches, then [break]. *)
Fixpoint rolesMemberLoop (gsaMember role : string) (roles : list string)
         (members : list string) : list string :=
  match members with
  | [] => roles
  | member :: members' =>
      if String.eqb member gsaMember then (roles ++ [role])%list
      else rolesMemberLoop gsaMember role roles members'
  end.

Fixpoint rolesBindingLoop (gsaMember : string) (roles : list string)
         (bindings : list Binding) : list string :=
  match bindings with
  | [] => roles
  | binding :: bindings' =>
      rolesBindingLoop gsaMember
        (rolesMemberLoop gsaMember (Role binding) roles (Members binding))
        bindings'
  end.

Definition getGSAsRolesOnProject (project gsaEmail : string)
  : M (list string * option error) :=
  err <- call EvCloudResourceManagerNewService (cloudresourcemanager_NewService W) ;;
  match err with
  | Some err =>
      ret ([], Some (fmt.Errorf "creating CloudResourceManager.Service: %w" [AError err]))
  | None =>
      iamPolicy <- call (EvGetProjectIamPolicy project) (Projects_GetIamPolicy W project) ;;
      match iamPolicy with
      | Err err =>
          ret ([], Some (fmt.Errorf "getting Project %q IAMPolicy: %w"
                           [AString project; AError err]))
      | Ok iamPolicy =>
          let gsaMember := gsaIAMPolicyMember gsaEmail in
          ret (rolesBindingLoop gsaMember [] (Bindings iamPolicy), None)
      end
  end.

Definition gcloud_argv : list string :=
  ["gcloud"; "config"; "get-value"; "core/project"].

Definition determineProject (projectFlagValue : string) : M (string * option error) :=
  if negb (String.eqb projectFlagValue "") then ret (projectFlagValue, None)
  else
    o <- call (EvExec gcloud_argv) (exec_Output W gcloud_argv) ;;
    match o with
    | Err err => ret ("", Some err)
    | Ok o => ret (TrimSpace o, None)
    end.

Definition default_kubeconfig (homeDir : string) : string :=
  filepath_Join [homeDir; ".kube"; "config"].

Definition GetRESTConfig (serverURL kubeconfig : string)
  : M (option Config * option error) :=
  if negb (String.eqb kubeconfig "")
  then
    c <- call (EvBuildConfigFromFlags serverURL kubeconfig)
              (BuildConfigFromFlags W serverURL kubeconfig) ;;
    match c with
    | Err err => ret (None, Some err)
    | Ok c => ret (Some c, None)
    end
  else
    c <- call EvInClusterConfig (InClusterConfig W) ;;
    match c with
    | Ok c => ret (Some c, None)
    | Err _ =>
        let giveUp : M (option Config * option error) :=
          ret (None, Some (mkError "*errors.errorString"
                                   "could not create a valid kubeconfig")) in
        usr <- call EvUserCurrent (user_Current W) ;;
        match usr with
        | Ok homeDir =>
            c <- call (EvBuildConfigFromFlags "" (default_kubeconfig homeDir))
                      (BuildConfigFromFlags W "" (default_kubeconfig homeDir)) ;;
            match c with
            | Ok c => ret (Some c, None)
            | Err _ => giveUp
            end
        | Err _ => giveUp
        end
    end.

Definition getClusterFromKubeconfig : M (string * string * string * option error) :=
  usr <- call EvUserCurrent (user_Current W) ;;
  match usr with
  | Err _ => ret ("", "", "", None)
  | Ok homeDir =>
      let fp := default_kubeconfig homeDir in
      f <- call (EvOpen fp) (os_Open W fp) ;;
      match f with
      | Some err => ret ("", "", "", Some err)
      | None =>
          kc <- call (EvDecode fp) (Decode_CurrentContext W fp) ;;
          match kc with
          | Err err => ret ("", "", "", Some err)
          | Ok currentContext =>
              let sp := strings.Split currentContext "_" in
              sp1 <- lift (index_slice sp 1) ;;
              sp2 <- lift (index_slice sp 2) ;;
              sp3 <- lift (index_slice sp 3) ;;
              ret (sp1, sp2, sp3, None)
          end
      end
  end.

Definition NewForConfigOrDie (cfg : option Config) : M Config :=
  match cfg with
  | None => panic NilDereference
  | Some c =>
      err <- call (EvNewForConfig c) (NewForConfig W c) ;;
      match err with
      | Some err => panic (OrDie err)
      | None => ret c
      end
  end.

Definition newline : string := String "010"%char EmptyString.

Definition main (flags : Flags) : M unit :=
  let prefix := "" in
  let pod := podFlag flags in
  let ksa := ksaFlag flags in
  if Bool.eqb (negb (String.eqb ksa "")) (negb (String.eqb pod ""))
  then log_Fatal [AString "Exactly one of --ksa and --pod must be specified."]
  else
    r <- GetRESTConfig (serverFlag flags) (kubeconfigFlag flags) ;;
    let '(cfg, err) := r in
    match err with
    | Some err => log_Fatal [AString "Error building kubeconfig: "; AError err]
    | None =>
    client <- NewForConfigOrDie cfg ;;
    r <- (if negb (String.eqb pod "")
          then
            let prefix := fmt.Sprintf "Pod %q uses " [AString pod] in
            r <- getPodKSA client (nsFlag flags) pod ;;
            let '(ksa, err) := r in
            match err with
            | Some err => log_Fatalf "Error getting the Pod's KSA: %v" [AError err]
            | None => ret (prefix, ksa)
            end
          else ret (prefix, ksa)) ;;
    let '(prefix, ksa) := r in
    r <- getKSAsWIAnotation client (nsFlag flags) ksa ;;
    let '(gsa, err) := r in
    match err with
    | Some err => log_Fatalf "Error getting the KSA's WI annotation: %v" [AError err]
    | None =>
    r <- getClusterFromKubeconfig ;;
    let '(p, l, n, err) := r in
    let '(clusterProject, clusterLocation, clusterName) :=
      match err with
      | None => (p, l, n)
      | Some _ =>
          (clusterProjectFlag flags, clusterLocationFlag flags, clusterNameFlag flags)
      end in
    r <- getWIPool (getClusterAPIName clusterProject clusterLocation clusterName) ;;
    let '(wiPool, err) := r in
    match err with
    | Some err => log_Fatalf "Error getting WI Pool: %v" [AError err]
    | None =>
    r <- ksaHasAccessToGSA wiPool (nsFlag flags) ksa gsa ;;
    let '(hasAccess, err) := r in
    match err with
    | Some err => log_Fatalf "Error checking the KSAs access on the GSA: %v" [AError err]
    | None =>
    if negb hasAccess
    then log_Fatalf
           "%sKSA %q, which links to GSA %q, but that GSA does not grant access to the KSA"
           [AString prefix; AString ksa; AString gsa]
    else
    r <- determineProject (projectFlag flags) ;;
    let '(project, err) := r in
    match err with
    | Some err => log_Fatalf "Error getting project: %w" [AError err]
    | None =>
    r <- getGSAsRolesOnProject project gsa ;;
    let '(roles, err) := r in
    match err with
    | Some err =>
        log_Fatalf "Error getting the GSA %q's roles on project %q: %v"
          [AString gsa; AString project; AError err]
    | None =>
        call (EvPrint (fmt.Sprintf
                         ("%sKSA %q, which links to GSA %q, whose roles on the project %q are %v"
                            +:+ newline)
                         [AString prefix; AString ksa; AString gsa; AString project;
                          AStrings roles])) tt
    end end end end end end.

End Diagnose.

(** * What the properties speak about *)

(** ** Strings *)

(** Occurrences of the byte [c] in [s] ([strings.Count] for a one-byte
    separator). *)
Fixpoint count_byte (c : ascii) (s : string) : nat :=
  match s with
  | EmptyString => 0
  | String d s' => (if Ascii.eqb d c then 1 else 0) + count_byte c s'
  end.

Definition byte (c : ascii) : string := String c EmptyString.

(** A piece ends at the end of the text or at the next separator. *)
Definition ends_piece (c : ascii) (tail : string) : Prop :=
  tail = "" \/ exists tail', tail = String c tail'.

(** ** Policies, flags and reports *)

(** The allow-list, role by role. *)
Definition allow_listed (role : string) : Prop :=
  role = "roles/iam.workloadIdentityUser" \/
  role = "roles/iam.serviceAccountTokenCreator" \/
  role = "roles/editor" \/
  role = "roles/owner".

(** Some binding of [policy] has an allow-listed role and lists exactly
    [principal] among its members. *)
Definition grants (policy : Policy) (principal : string) : Prop :=
  exists binding,
    binding ∈ Bindings policy /\ allow_listed (Role binding) /\
    principal ∈ Members binding.

(** Exactly one of -ksa and -pod is given. *)
Definition exactly_one (flags : Flags) : Prop :=
  (ksaFlag flags <> "" /\ podFlag flags = "") \/
  (ksaFlag flags = "" /\ podFlag flags <> "").

(** The first thing [main] does once the flags are accepted: the first call
    of [GetRESTConfig]. *)
Definition first_call (flags : Flags) : Event :=
  if String.eqb (kubeconfigFlag flags) "" then EvInClusterConfig
  else EvBuildConfigFromFlags (serverFlag flags) (kubeconfigFlag flags).

Section Reports.
Context `{GoLib}.

(** What [main] puts in front of its report: nothing for -ksa, the pod for
    -pod. *)
Definition report_prefix (flags : Flags) : string :=
  if String.eqb (podFlag flags) "" then ""
  else fmt.Sprintf "Pod %q uses " [AString (podFlag flags)].

(** The sentence [main] ends with when the GSA does not let the KSA in. *)
Definition no_access_report (flags : Flags) (ksa gsa : string) : string :=
  report_prefix flags +:+ "KSA " +:+ Quote ksa +:+ ", which links to GSA " +:+ Quote gsa
    +:+ ", but that GSA does not grant access to the KSA".

End Reports.

(** ** A library instance to run the program on plain text

    Enough of the four library functions for printable ASCII text that holds
    no quote, backslash or blank at its ends; used to evaluate the program on
    concrete inputs. *)

Definition plainLib : GoLib :=
  {| Quote := fun s => String "034"%char s +:+ String "034"%char "";
     TrimSpace := fun s => s;
     filepath_Join := fun elems => strings.Join elems "/";
     GoSyntax := fun e => "&{" +:+ errText e +:+ "}" |}.

(** ** A concrete cluster to run the program against *)

Definition unknownUser : error := mkError "user.UnknownUserIdError" "user: unknown userid 1000".

Definition notInCluster : error :=
  mkError "*errors.errorString" "unable to load in-cluster configuration".

(** The GSA grants the workload-identity role to [agent] in [my-ns]. *)
Definition grantingPolicy : Policy :=
  mkPolicy [mkBinding "roles/iam.workloadIdentityUser"
              ["serviceAccount:proj.svc.id.goog[my-ns/agent]"]].

(** Near misses only: the right member under a role that is not allow-listed,
    and an allow-listed role whose member differs in one character. *)
Definition nearMissPolicy : Policy :=
  mkPolicy [mkBinding "roles/viewer" ["serviceAccount:proj.svc.id.goog[my-ns/agent]"];
            mkBinding "roles/owner" ["serviceAccount:proj.svc.id.goog[my-ns/agenT]"]].

(** The project gives the GSA two roles, one of them through a binding that
    lists it twice. *)
Definition projectPolicy : Policy :=
  mkPolicy [mkBinding "roles/storage.admin"
              ["user:x@example.com"; "serviceAccount:a@proj.iam.gserviceaccount.com"];
            mkBinding "roles/viewer" ["user:y@example.com"];
            mkBinding "roles/pubsub.editor"
              ["serviceAccount:a@proj.iam.gserviceaccount.com";
               "serviceAccount:a@proj.iam.gserviceaccount.com"]].

Definition sampleWorld (usr currentContext : Reply string) (inCluster : Reply Config)
           (gsaPolicy : Policy) : World :=
  {| user_Current := usr;
     BuildConfigFromFlags := fun _ _ => Ok (mkConfig "https://10.0.0.1");
     InClusterConfig := inCluster;
     NewForConfig := fun _ => None;
     Pods_Get := fun _ _ _ => Ok "agent";
     ServiceAccounts_Get := fun _ _ _ =>
       Ok {[ wiGSAAnnotation := "a@proj.iam.gserviceaccount.com" ]};
     os_Open := fun _ => None;
     Decode_CurrentContext := fun _ => currentContext;
     container_NewService := None;
     Clusters_Get := fun _ => Ok (mkCluster (Some (mkWIConfig "proj.svc.id.goog")));
     iam_NewService := None;
     ServiceAccounts_GetIamPolicy := fun _ => Ok gsaPolicy;
     cloudresourcemanager_NewService := None;
     Projects_GetIamPolicy := fun _ => Ok projectPolicy;
     exec_Output := fun _ => Ok "proj" |}.

Definition laptop (gsaPolicy : Policy) : World :=
  sampleWorld (Ok "/home/u") (Ok "gke_proj_us-central1_c1") (Err notInCluster) gsaPolicy.

(** A pod whose user id has no passwd entry: the in-cluster configuration
    works, [user.Current] does not. *)
Definition inPod (gsaPolicy : Policy) : World :=
  sampleWorld (Err unknownUser) (Ok "gke_proj_us-central1_c1")
              (Ok (mkConfig "https://10.0.0.1")) gsaPolicy.

(** A kubeconfig whose current context is not a GKE one. *)
Definition minikube : World :=
  sampleWorld (Ok "/home/u") (Ok "minikube") (Err notInCluster) grantingPolicy.

Definition sampleGSA : string := "a@proj.iam.gserviceaccount.com".
Definition samplePool : string := "proj.svc.id.goog".
Definition sampleResource : string :=
  "projects/proj/serviceAccounts/a@proj.iam.gserviceaccount.com".

Definition ksaFlags : Flags :=
  {| serverFlag := ""; kubeconfigFlag := ""; ksaFlag := "agent"; nsFlag := "my-ns";
     podFlag := ""; projectFlag := "";
     clusterProjectFlag := ""; clusterLocationFlag := ""; clusterNameFlag := "" |}.

Definition podFlags : Flags :=
  {| serverFlag := ""; kubeconfigFlag := ""; ksaFlag := ""; nsFlag := "my-ns";
     podFlag := "my-pod"; projectFlag := "other-project";
     clusterProjectFlag := ""; clusterLocationFlag := ""; clusterNameFlag := "" |}.

Definition bothFlags : Flags :=
  {| serverFlag := ""; kubeconfigFlag := ""; ksaFlag := "agent"; nsFlag := "my-ns";
     podFlag := "my-pod"; projectFlag := "";
     clusterProjectFlag := ""; clusterLocationFlag := ""; clusterNameFlag := "" |}.

Definition clusterFlags : Flags :=
  {| serverFlag := ""; kubeconfigFlag := ""; ksaFlag := "agent"; nsFlag := "my-ns";
     podFlag := ""; projectFlag := "proj";
     clusterProjectFlag := "proj"; clusterLocationFlag := "us-central1";
     clusterNameFlag := "c1" |}.

Section MoreReports.
Context `{GoLib}.

(** The line [main] prints when all went well. *)
Definition roles_report (flags : Flags) (ksa gsa project : string) (roles : list string)
  : string :=
  report_prefix flags +:+ "KSA " +:+ Quote ksa +:+ ", which links to GSA " +:+ Quote gsa
    +:+ ", whose roles on the project " +:+ Quote project +:+ " are ["
    +:+ strings.Join roles " " +:+ "]" +:+ newline.

End MoreReports.

(** ** Runs of the program *)

(** The event [e] shows in the trace of the run [x]. *)
Definition in_trace {A} (e : Event) (x : M A) : Prop := e ∈ x.1.

(** The event [e] does not show in the trace of the run [x]. *)
Definition never {A} (e : Event) (x : M A) : Prop := e ∉ x.1.

(** The run [x] ends with outcome [r] right after the event [e]. *)
Definition ends_with {A} (e : Event) (r : Res A) (x : M A) : Prop :=
  exists t, x = ((t ++ [e])%list, r).


(** A property of runs that still holds after more events are put in
    front. *)
Definition prefix_closed {A} (Q : M A -> Prop) : Prop :=
  forall t x, Q x -> Q ((t ++ x.1)%list, x.2).

(** ** More clusters to run the program against *)

Definition denied : error :=
  mkError "*googleapi.Error" "googleapi: Error 403: Permission denied".

(** [W] with another answer of one of its oracles. *)
Definition with_annotations (ann : gmap string string) (W : World) : World :=
  {| user_Current := user_Current W;
     BuildConfigFromFlags := BuildConfigFromFlags W;
     InClusterConfig := InClusterConfig W;
     NewForConfig := NewForConfig W;
     Pods_Get := Pods_Get W;
     ServiceAccounts_Get := fun _ _ _ => Ok ann;
     os_Open := os_Open W;
     Decode_CurrentContext := Decode_CurrentContext W;
     container_NewService := container_NewService W;
     Clusters_Get := Clusters_Get W;
     iam_NewService := iam_NewService W;
     ServiceAccounts_GetIamPolicy := ServiceAccounts_GetIamPolicy W;
     cloudresourcemanager_NewService := cloudresourcemanager_NewService W;
     Projects_GetIamPolicy := Projects_GetIamPolicy W;
     exec_Output := exec_Output W |}.

Definition with_cluster (cluster : Reply Cluster) (W : World) : World :=
  {| user_Current := user_Current W;
     BuildConfigFromFlags := BuildConfigFromFlags W;
     InClusterConfig := InClusterConfig W;
     NewForConfig := NewForConfig W;
     Pods_Get := Pods_Get W;
     ServiceAccounts_Get := ServiceAccounts_Get W;
     os_Open := os_Open W;
     Decode_CurrentContext := Decode_CurrentContext W;
     container_NewService := container_NewService W;
     Clusters_Get := fun _ => cluster;
     iam_NewService := iam_NewService W;
     ServiceAccounts_GetIamPolicy := ServiceAccounts_GetIamPolicy W;
     cloudresourcemanager_NewService := cloudresourcemanager_NewService W;
     Projects_GetIamPolicy := Projects_GetIamPolicy W;
     exec_Output := exec_Output W |}.

Definition with_policies (gsaPolicy projPolicy : Reply Policy) (W : World) : World :=
  {| user_Current := user_Current W;
     BuildConfigFromFlags := BuildConfigFromFlags W;
     InClusterConfig := InClusterConfig W;
     NewForConfig := NewForConfig W;
     Pods_Get := Pods_Get W;
     ServiceAccounts_Get := ServiceAccounts_Get W;
     os_Open := os_Open W;
     Decode_CurrentContext := Decode_CurrentContext W;
     container_NewService := container_NewService W;
     Clusters_Get := Clusters_Get W;
     iam_NewService := iam_NewService W;
     ServiceAccounts_GetIamPolicy := fun _ => gsaPolicy;
     cloudresourcemanager_NewService := cloudresourcemanager_NewService W;
     Projects_GetIamPolicy := fun _ => projPolicy;
     exec_Output := exec_Output W |}.

Definition with_open (answer : option error) (W : World) : World :=
  {| user_Current := user_Current W;
     BuildConfigFromFlags := BuildConfigFromFlags W;
     InClusterConfig := InClusterConfig W;
     NewForConfig := NewForConfig W;
     Pods_Get := Pods_Get W;
     ServiceAccounts_Get := ServiceAccounts_Get W;
     os_Open := fun _ => answer;
     Decode_CurrentContext := Decode_CurrentContext W;
     container_NewService := container_NewService W;
     Clusters_Get := Clusters_Get W;
     iam_NewService := iam_NewService W;
     ServiceAccounts_GetIamPolicy := ServiceAccounts_GetIamPolicy W;
     cloudresourcemanager_NewService := cloudresourcemanager_NewService W;
     Projects_GetIamPolicy := Projects_GetIamPolicy W;
     exec_Output := exec_Output W |}.

(** What the access check makes of [denied]. *)
Definition denied_wrapped : error :=
  mkError "*fmt.wrapError"
    ("getting GSA " +:+ @Quote plainLib sampleResource +:+ " IAMPolicy: "
       +:+ errText denied).

(** The service account carries no workload-identity annotation. *)
Definition unannotated : World := with_annotations ∅ (laptop grantingPolicy).

(** The annotation is there but is no email. *)
Definition misannotated : World :=
  with_annotations {[ wiGSAAnnotation := "default" ]} (laptop grantingPolicy).

(** Workload identity is not enabled on the cluster. *)
Definition noWorkloadIdentity : World :=
  with_cluster (Ok (mkCluster None)) (laptop grantingPolicy).

(** The caller may not read IAM policies. *)
Definition noIamAccess : World :=
  with_policies (Err denied) (Err denied) (laptop grantingPolicy).

(** The kubeconfig cannot be opened. *)
Definition noKubeconfig : World :=
  with_open (Some (mkError "*fs.PathError" "open /home/u/.kube/config: permission denied"))
            (sampleWorld (Ok "/home/u") (Ok "gke_proj_us-central1_c1")
                         (Ok (mkConfig "https://10.0.0.1")) grantingPolicy).

(** The same binding list as [grantingPolicy], after bindings the check does
    not care about. *)
Definition widerPolicy : Policy :=
  mkPolicy [mkBinding "roles/viewer" ["user:x@example.com"];
            mkBinding "roles/iam.workloadIdentityUser"
              ["serviceAccount:proj.svc.id.goog[my-ns/agent]"]].

Definition sampleConfig : Config := mkConfig "https://10.0.0.1".

(** * Properties *)

(** ** Strings *)

Lemma append_empty_r (s : string) : s +:+ "" = s.
Proof. induction s as [|c s IH]; simpl; [reflexivity | now f_equal]. Qed.

Lemma append_assoc (a b c : string) : (a +:+ b) +:+ c = a +:+ b +:+ c.
Proof. induction a as [|x a IH]; simpl; [reflexivity | now f_equal]. Qed.

Lemma count_byte_app (c : ascii) (a b : string) :
  count_byte c (a +:+ b) = count_byte c a + count_byte c b.
Proof. induction a as [|x a IH]; simpl; [reflexivity | rewrite IH; lia]. Qed.

Lemma Split_byte_nil (c : ascii) : strings.Split "" (byte c) = [""].
Proof. reflexivity. Qed.

Lemma Split_byte_cons (c d : ascii) (s : string) :
  strings.Split (String d s) (byte c) =
  if Ascii.eqb d c then "" :: strings.Split s (byte c)
  else match strings.Split s (byte c) with
       | piece :: rest => String d piece :: rest
       | [] => [String d ""]
       end.
Proof.
  unfold strings.Split, byte. simpl.
  destruct (Ascii.eqb d c); reflexivity.
Qed.

(** [Split] on a one-byte separator yields one piece more than there are
    separators. *)
Lemma Split_byte_length (c : ascii) (s : string) :
  List.length (strings.Split s (byte c)) = S (count_byte c s).
Proof.
  induction s as [|d s IH].
  - reflexivity.
  - rewrite Split_byte_cons. simpl count_byte.
    destruct (Ascii.eqb d c); simpl.
    + now rewrite IH.
    + destruct (strings.Split s (byte c)) as [|piece rest]; simpl in *; lia.
Qed.

Lemma Split_byte_absent (c : ascii) (s : string) :
  count_byte c s = 0 -> strings.Split s (byte c) = [s].
Proof.
  induction s as [|d s IH]; intros Hc.
  - reflexivity.
  - rewrite Split_byte_cons. simpl in Hc.
    destruct (Ascii.eqb d c); [discriminate|].
    now rewrite IH.
Qed.

Lemma Split_byte_app (c : ascii) (a rest : string) :
  count_byte c a = 0 ->
  strings.Split (a +:+ String c rest) (byte c) = a :: strings.Split rest (byte c).
Proof.
  induction a as [|d a IH]; intros Hc.
  - simpl. rewrite Split_byte_cons. now rewrite Ascii.eqb_refl.
  - simpl in *. rewrite Split_byte_cons.
    destruct (Ascii.eqb d c); [discriminate|].
    now rewrite IH.
Qed.

Lemma Split_byte_first (c : ascii) (b tail : string) :
  count_byte c b = 0 -> ends_piece c tail ->
  exists rest, strings.Split (b +:+ tail) (byte c) = b :: rest.
Proof.
  intros Hb [-> | [tail' ->]].
  - rewrite append_empty_r, Split_byte_absent by assumption. now exists [].
  - rewrite Split_byte_app by assumption. eauto.
Qed.

(** ** Formatting *)

Section Formatting.
Context `{GoLib}.

Lemma Sprintf_resource (proj gsaEmail : string) :
  fmt.Sprintf "projects/%s/serviceAccounts/%s" [AString proj; AString gsaEmail]
  = "projects/" +:+ proj +:+ "/serviceAccounts/" +:+ gsaEmail.
Proof. unfold fmt.Sprintf. simpl. now rewrite append_empty_r. Qed.

Lemma Sprintf_ksa_member (wiPool ns ksaName : string) :
  ksaIAMPolicyMember wiPool ns ksaName
  = "serviceAccount:" +:+ wiPool +:+ "[" +:+ ns +:+ "/" +:+ ksaName +:+ "]".
Proof. unfold ksaIAMPolicyMember, fmt.Sprintf. simpl. reflexivity. Qed.

Lemma Sprintf_gsa_member (gsaEmail : string) :
  gsaIAMPolicyMember gsaEmail = "serviceAccount:" +:+ gsaEmail.
Proof. unfold gsaIAMPolicyMember, fmt.Sprintf. simpl. now rewrite append_empty_r. Qed.

End Formatting.

(** ** Principal strings and resource names *)

Section Names.
Context `{GoLib}.

(** C2: for every pool P, namespace N and KSA K, the synthesized principal is
    exactly serviceAccount:P[N/K]. *)
Theorem ksaIAMPolicyMember_format (P N K : string) :
  ksaIAMPolicyMember P N K = "serviceAccount:" +:+ P +:+ "[" +:+ N +:+ "/" +:+ K +:+ "]".
Proof. unfold ksaIAMPolicyMember, fmt.Sprintf. simpl. reflexivity. Qed.

Lemma Split_byte_prefix (c : ascii) (x y : string) :
  count_byte c x = 0 ->
  exists piece rest,
    strings.Split y (byte c) = piece :: rest /\
    strings.Split (x +:+ y) (byte c) = (x +:+ piece) :: rest.
Proof.
  intros Hx.
  assert (Hy : exists piece rest, strings.Split y (byte c) = piece :: rest).
  { pose proof (Split_byte_length c y) as Hl.
    destruct (strings.Split y (byte c)) as [|piece rest]; [discriminate | eauto]. }
  destruct Hy as (piece & rest & Hy). exists piece, rest. split; [assumption|].
  induction x as [|d x IH]; simpl in *.
  - assumption.
  - rewrite Split_byte_cons.
    destruct (Ascii.eqb d c); [discriminate|].
    now rewrite IH.
Qed.

(** The second ['@']-piece of [a@b<tail>] begins with [b] and goes on, if at
    all, with a ['.']. *)
Lemma domain_piece (a b tail : string) :
  count_byte "@" a = 0 -> count_byte "@" b = 0 ->
  ends_piece "." tail \/ ends_piece "@" tail ->
  exists more rest,
    strings.Split (a +:+ "@" +:+ b +:+ tail) "@" = a :: (b +:+ more) :: rest /\
    ends_piece "." more.
Proof.
  intros Ha Hb Htail.
  assert (Hcut : strings.Split (a +:+ "@" +:+ b +:+ tail) "@"
                 = a :: strings.Split (b +:+ tail) (byte "@"))
    by exact (Split_byte_app "@" a (b +:+ tail) Ha).
  rewrite Hcut. clear Hcut.
  assert (Hdot : ends_piece "." tail \/ exists tail', tail = String "@" tail').
  { destruct Htail as [Ht | [Ht | Ht]]; [now left | left; now left | now right]. }
  destruct Hdot as [[-> | [tail' ->]] | [tail' ->]].
  - rewrite append_empty_r, Split_byte_absent by assumption.
    exists "", []. rewrite append_empty_r. split; [reflexivity | now left].
  - destruct (Split_byte_prefix "@" (b +:+ ".") tail') as (piece & rest & _ & Hs).
    { rewrite count_byte_app, Hb. reflexivity. }
    rewrite append_assoc in Hs. simpl in Hs. rewrite Hs.
    exists (String "." piece), rest. rewrite append_assoc. simpl.
    split; [reflexivity | right; eauto].
  - rewrite Split_byte_app by assumption.
    exists "", (strings.Split tail' (byte "@")). rewrite append_empty_r.
    split; [reflexivity | now left].
Qed.

(** C3: for an email a@b<tail>, where a holds no '@', b holds neither '@' nor
    '.', and the tail is empty or starts with '.' or '@' (so b is the piece
    found by splitting on '@' and then on '.'; a@b.iam.gserviceaccount.com is
    the usual case), the API resource is projects/b/serviceAccounts/<email>. *)
Theorem getGSAAPIResource_project (a b tail : string) :
  count_byte "@" a = 0 ->
  count_byte "@" b = 0 ->
  count_byte "." b = 0 ->
  ends_piece "." tail \/ ends_piece "@" tail ->
  getGSAAPIResource (a +:+ "@" +:+ b +:+ tail)
  = ([], Ret ("projects/" +:+ b +:+ "/serviceAccounts/" +:+ a +:+ "@" +:+ b +:+ tail)).
Proof.
  intros Ha Hb Hdot Htail.
  destruct (domain_piece a b tail Ha Hb Htail) as (more & rest & Hsplit & Hmore).
  destruct (Split_byte_first "." b more Hdot Hmore) as (rest' & Hproj).
  unfold getGSAAPIResource. rewrite Hsplit. simpl.
  change (strings.Split (b +:+ more) ".") with (strings.Split (b +:+ more) (byte ".")).
  rewrite Hproj. simpl.
  now rewrite Sprintf_resource.
Qed.

(** C9: an email without any '@' makes [getGSAAPIResource] panic on the index
    into the split: index 1 of a slice of length 1. *)
Theorem getGSAAPIResource_panics (gsaEmail : string) :
  count_byte "@" gsaEmail = 0 ->
  getGSAAPIResource gsaEmail = ([], Panicked (IndexOutOfRange 1 1)).
Proof.
  intros Hat. unfold getGSAAPIResource.
  change (strings.Split gsaEmail "@") with (strings.Split gsaEmail (byte "@")).
  now rewrite Split_byte_absent.
Qed.

End Names.

Lemma getGSAAPIResource_project_witness :
  @getGSAAPIResource plainLib "a@b.iam.gserviceaccount.com"
  = ([], Ret "projects/b/serviceAccounts/a@b.iam.gserviceaccount.com").
Proof.
  apply (@getGSAAPIResource_project plainLib "a" "b" ".iam.gserviceaccount.com");
    [reflexivity | reflexivity | reflexivity | left; right; eauto].
Defined.

Lemma getGSAAPIResource_panics_witness :
  @getGSAAPIResource plainLib "" = ([], Panicked (IndexOutOfRange 1 1)).
Proof. apply (@getGSAAPIResource_panics plainLib ""). reflexivity. Defined.

(** ** Running the monad *)

Lemma snd_bind {A B} (m : M A) (k : A -> M B) :
  (bind m k).2 = match m.2 with
                 | Ret a => (k a).2
                 | Fatal msg => Fatal msg
                 | Panicked p => Panicked p
                 end.
Proof.
  destruct m as [t [a | msg | p]]; simpl; try reflexivity.
  now destruct (k a).
Qed.

Lemma fst_bind {A B} (m : M A) (k : A -> M B) :
  exists rest, (bind m k).1 = (m.1 ++ rest)%list.
Proof.
  destruct m as [t [a | msg | p]]; simpl.
  - destruct (k a) as [t' r]. now exists t'.
  - exists []. now rewrite app_nil_r.
  - exists []. now rewrite app_nil_r.
Qed.

Lemma bind_ret {A B} (a : A) (k : A -> M B) : bind (ret a) k = k a.
Proof. unfold bind, ret. now destruct (k a). Qed.

Lemma snd_ret {A} (a : A) : (ret a).2 = Ret a.
Proof. reflexivity. Qed.

Lemma snd_bind_ret {A B} (m : M A) (k : A -> M B) (a : A) :
  m.2 = Ret a -> (bind m k).2 = (k a).2.
Proof. intros Hm. now rewrite snd_bind, Hm. Qed.

Arguments bind : simpl never.

(** ** The access check *)

Lemma ksaRoles_allow_listed (role : string) : role ∈ ksaRoles <-> allow_listed role.
Proof.
  unfold ksaRoles, allow_listed.
  rewrite !elem_of_union, !elem_of_singleton. tauto.
Qed.

Lemma ksaMemberLoop_true (ksaMember role : string) (members : list string) :
  ksaMemberLoop ksaMember role members = true <->
  allow_listed role /\ ksaMember ∈ members.
Proof.
  rewrite <- ksaRoles_allow_listed.
  induction members as [|member members IH]; simpl.
  - split; [discriminate | intros [_ Hin]; inversion Hin].
  - destruct (String.eqb_spec member ksaMember) as [-> | Hne].
    + destruct (bool_decide_reflect (role ∈ ksaRoles)) as [Hrole | Hrole].
      * split; [intros _; split; [assumption | left] | reflexivity].
      * rewrite IH. split; intros [Hr _]; contradiction.
    + rewrite IH. split; intros [Hr Hin]; split; try assumption.
      * now right.
      * inversion Hin; subst; [congruence | assumption].
Qed.

Lemma ksaBindingLoop_true (ksaMember : string) (bindings : list Binding) :
  ksaBindingLoop ksaMember bindings = true <->
  exists binding,
    binding ∈ bindings /\ allow_listed (Role binding) /\ ksaMember ∈ Members binding.
Proof.
  induction bindings as [|b bindings IH]; simpl.
  - split; [discriminate | intros (b & Hin & _); inversion Hin].
  - destruct (ksaMemberLoop ksaMember (Role b) (Members b)) eqn:Hb.
    + apply ksaMemberLoop_true in Hb. split; [intros _ | reflexivity].
      exists b. split; [left | assumption].
    + rewrite IH. split; intros (b' & Hin & Hrole & Hmem).
      * exists b'. split; [now right | now split].
      * exists b'. split; [| now split].
        inversion Hin; subst; [| assumption].
        assert (Htrue : ksaMemberLoop ksaMember (Role b) (Members b) = true)
          by now apply ksaMemberLoop_true.
        congruence.
Qed.

Section AccessCheck.
Context `{GoLib} (W : World).

(** What [ksaHasAccessToGSA] yields once the policy is in hand. *)
Lemma ksaHasAccessToGSA_fetched (wiPool ns ksaName gsaEmail resource : string)
      (policy : Policy) :
  iam_NewService W = None ->
  (getGSAAPIResource gsaEmail).2 = Ret resource ->
  ServiceAccounts_GetIamPolicy W resource = Ok policy ->
  (ksaHasAccessToGSA W wiPool ns ksaName gsaEmail).2
  = Ret (ksaBindingLoop (ksaIAMPolicyMember wiPool ns ksaName) (Bindings policy), None).
Proof.
  intros Hsvc Hres Hpol. unfold ksaHasAccessToGSA.
  rewrite Hsvc, snd_bind. simpl. rewrite snd_bind, Hres. simpl.
  rewrite snd_bind. simpl. rewrite Hpol.
  now destruct (ksaBindingLoop _ _).
Qed.

(** With the policy in hand and no granting binding the answer is
    (false, nil). *)
Lemma ksaHasAccessToGSA_not_granted (wiPool ns ksaName gsaEmail resource : string)
      (policy : Policy) :
  iam_NewService W = None ->
  (getGSAAPIResource gsaEmail).2 = Ret resource ->
  ServiceAccounts_GetIamPolicy W resource = Ok policy ->
  ~ grants policy (ksaIAMPolicyMember wiPool ns ksaName) ->
  (ksaHasAccessToGSA W wiPool ns ksaName gsaEmail).2 = Ret (false, None).
Proof.
  intros Hsvc Hres Hpol Hno.
  rewrite (ksaHasAccessToGSA_fetched _ _ _ _ _ _ Hsvc Hres Hpol).
  destruct (ksaBindingLoop _ _) eqn:Hloop; [| reflexivity].
  apply ksaBindingLoop_true in Hloop. contradiction.
Qed.

(** C1: the check answers (true, nil) exactly when the policy fetched for the
    GSA has a binding with an allow-listed role that lists the synthesized
    principal, character for character; with the policy in hand and no such
    binding it answers (false, nil). *)
Theorem ksaHasAccessToGSA_iff (wiPool ns ksaName gsaEmail : string) :
  let principal :=
    "serviceAccount:" +:+ wiPool +:+ "[" +:+ ns +:+ "/" +:+ ksaName +:+ "]" in
  ((ksaHasAccessToGSA W wiPool ns ksaName gsaEmail).2 = Ret (true, None) <->
   exists resource policy,
     iam_NewService W = None /\
     (getGSAAPIResource gsaEmail).2 = Ret resource /\
     ServiceAccounts_GetIamPolicy W resource = Ok policy /\
     grants policy principal)
  /\
  (forall resource policy,
     iam_NewService W = None ->
     (getGSAAPIResource gsaEmail).2 = Ret resource ->
     ServiceAccounts_GetIamPolicy W resource = Ok policy ->
     ~ grants policy principal ->
     (ksaHasAccessToGSA W wiPool ns ksaName gsaEmail).2 = Ret (false, None)).
Proof.
  intros principal. unfold principal. rewrite <- Sprintf_ksa_member.
  split; [unfold grants; split|].
  - unfold ksaHasAccessToGSA. rewrite snd_bind. simpl.
    destruct (iam_NewService W) as [err|]; [discriminate|].
    rewrite snd_bind.
    destruct (getGSAAPIResource gsaEmail).2 as [resource | msg | p] eqn:Hres;
      [| discriminate | discriminate].
    rewrite snd_bind. simpl.
    destruct (ServiceAccounts_GetIamPolicy W resource) as [policy | err] eqn:Hpol;
      [| discriminate].
    destruct (ksaBindingLoop _ _) eqn:Hloop; [| discriminate].
    intros _. exists resource, policy.
    repeat split; try assumption. now apply ksaBindingLoop_true.
  - intros (resource & policy & Hsvc & Hres & Hpol & Hgrant).
    rewrite (ksaHasAccessToGSA_fetched _ _ _ _ _ _ Hsvc Hres Hpol).
    apply ksaBindingLoop_true in Hgrant. now rewrite Hgrant.
  - intros resource policy. apply ksaHasAccessToGSA_not_granted.
Qed.

End AccessCheck.

(** ** Roles of the GSA on the project *)

Lemma rolesMemberLoop_spec (gsaMember role : string) (roles members : list string) :
  rolesMemberLoop gsaMember role roles members
  = if decide (gsaMember ∈ members) then (roles ++ [role])%list else roles.
Proof.
  induction members as [|member members IH]; simpl.
  - destruct (decide (gsaMember ∈ [])) as [Hin | _]; [inversion Hin | reflexivity].
  - destruct (String.eqb_spec member gsaMember) as [-> | Hne].
    + destruct (decide (gsaMember ∈ gsaMember :: members)) as [_ | Hout];
        [reflexivity | exfalso; apply Hout; left].
    + rewrite IH.
      destruct (decide (gsaMember ∈ members)) as [Hin | Hout];
        destruct (decide (gsaMember ∈ member :: members)) as [Hin' | Hout'];
        try reflexivity.
      * exfalso. apply Hout'. now right.
      * exfalso. inversion Hin'; subst; [congruence | contradiction].
Qed.

Lemma rolesBindingLoop_spec (gsaMember : string) (bindings : list Binding) :
  forall roles,
    rolesBindingLoop gsaMember roles bindings
    = (roles ++ (Role <$> filter (fun b => gsaMember ∈ Members b) bindings))%list.
Proof.
  induction bindings as [|b bindings IH]; intros roles; simpl.
  - now rewrite app_nil_r.
  - rewrite IH, rolesMemberLoop_spec, filter_cons.
    destruct (decide (gsaMember ∈ Members b)); simpl.
    + now rewrite <- app_assoc.
    + reflexivity.
Qed.

Section ProjectRoles.
Context `{GoLib} (W : World).

(** C7: once the project's policy is fetched, the result is the roles of
    exactly the bindings that list serviceAccount:<email>, in policy order,
    with a nil error. *)
Theorem getGSAsRolesOnProject_roles (project gsaEmail : string) (policy : Policy) :
  cloudresourcemanager_NewService W = None ->
  Projects_GetIamPolicy W project = Ok policy ->
  getGSAsRolesOnProject W project gsaEmail
  = ([EvCloudResourceManagerNewService; EvGetProjectIamPolicy project],
     Ret (Role <$> filter (fun b => ("serviceAccount:" +:+ gsaEmail) ∈ Members b)
                          (Bindings policy),
          None)).
Proof.
  intros Hsvc Hpol. unfold getGSAsRolesOnProject.
  rewrite Hsvc. unfold bind at 1. simpl.
  rewrite Hpol. unfold bind, call, ret. simpl.
  now rewrite rolesBindingLoop_spec, Sprintf_gsa_member.
Qed.

(** C8: a non-empty -project value comes back unchanged and nothing is run;
    an empty one runs gcloud config get-value core/project and yields its
    output trimmed, or its error. *)
Theorem determineProject_spec (projectFlagValue : string) :
  (projectFlagValue <> "" ->
   determineProject W projectFlagValue = ([], Ret (projectFlagValue, None)))
  /\
  (projectFlagValue = "" ->
   determineProject W projectFlagValue
   = ([EvExec ["gcloud"; "config"; "get-value"; "core/project"]],
      Ret match exec_Output W ["gcloud"; "config"; "get-value"; "core/project"] with
          | Ok o => (TrimSpace o, None)
          | Err err => ("", Some err)
          end)).
Proof.
  unfold determineProject. split.
  - intros Hne. destruct (String.eqb_spec projectFlagValue "") as [-> | _];
      [congruence | reflexivity].
  - intros ->. simpl. unfold bind, call, gcloud_argv.
    destruct (exec_Output W _); reflexivity.
Qed.

(** C10: a kubeconfig whose current context holds fewer than three '_' makes
    [getClusterFromKubeconfig] panic on the first index that is out of
    range, after the file has been read. *)
Theorem getClusterFromKubeconfig_panics (homeDir currentContext : string) :
  user_Current W = Ok homeDir ->
  os_Open W (default_kubeconfig homeDir) = None ->
  Decode_CurrentContext W (default_kubeconfig homeDir) = Ok currentContext ->
  count_byte "_" currentContext < 3 ->
  getClusterFromKubeconfig W
  = ([EvUserCurrent; EvOpen (default_kubeconfig homeDir);
      EvDecode (default_kubeconfig homeDir)],
     Panicked (IndexOutOfRange (S (count_byte "_" currentContext))
                               (S (count_byte "_" currentContext)))).
Proof.
  intros Husr Hopen Hdec Hcount. unfold getClusterFromKubeconfig.
  rewrite Husr. unfold bind at 1. simpl.
  rewrite Hopen. unfold bind at 1. simpl.
  rewrite Hdec. unfold bind at 1. simpl.
  pose proof (Split_byte_length "_" currentContext) as Hlen.
  change (byte "_") with "_" in Hlen.
  destruct (strings.Split currentContext "_") as [|s0 [|s1 [|s2 [|s3 sp]]]];
    simpl in Hlen; try lia;
    injection Hlen as Hlen; rewrite <- Hlen; reflexivity.
Qed.

End ProjectRoles.

(** ** Input validation in [main] *)

Lemma validation_test (flags : Flags) :
  Bool.eqb (negb (String.eqb (ksaFlag flags) "")) (negb (String.eqb (podFlag flags) ""))
  = false <-> exactly_one flags.
Proof.
  unfold exactly_one.
  destruct (String.eqb_spec (ksaFlag flags) "") as [-> | Hk];
    destruct (String.eqb_spec (podFlag flags) "") as [-> | Hp]; simpl;
    split; try discriminate; try reflexivity; tauto.
Qed.

Section Validation.
Context `{GoLib} (W : World).

Lemma GetRESTConfig_first (flags : Flags) :
  exists rest,
    (GetRESTConfig W (serverFlag flags) (kubeconfigFlag flags)).1
    = first_call flags :: rest.
Proof.
  unfold GetRESTConfig, first_call.
  destruct (String.eqb (kubeconfigFlag flags) ""); simpl.
  - match goal with
    | |- exists _, (bind ?m ?k).1 = _ => destruct (fst_bind m k) as [rest Hrest]
    end.
    exists rest. exact Hrest.
  - unfold bind, call. simpl.
    destruct (BuildConfigFromFlags W _ _); simpl; eauto.
Qed.

(** C4: [main] goes on to its first call exactly when one of -ksa and -pod is
    given and the other is not; otherwise it stops with the fatal message
    and an empty trace, so before any call at all, network or local. *)
Theorem main_validates_flags (flags : Flags) :
  (exactly_one flags <-> exists rest, (main W flags).1 = first_call flags :: rest)
  /\
  (~ exactly_one flags ->
   main W flags = ([], Fatal "Exactly one of --ksa and --pod must be specified.")
   /\ existsb is_network_call (main W flags).1 = false).
Proof.
  assert (Hrejected : ~ exactly_one flags ->
            main W flags
            = ([], Fatal "Exactly one of --ksa and --pod must be specified.")).
  { intros Hno. unfold main.
    destruct (Bool.eqb _ _) eqn:Htest; [reflexivity|].
    apply validation_test in Htest. contradiction. }
  split; [split|].
  - intros Hone. apply validation_test in Hone. unfold main. rewrite Hone.
    destruct (GetRESTConfig_first flags) as [rest Hrest].
    match goal with
    | |- exists _, (bind ?m ?k).1 = _ => destruct (fst_bind m k) as [rest' Hrest']
    end.
    rewrite Hrest', Hrest. simpl. eauto.
  - intros [rest Hrest] .
    destruct (Bool.eqb (negb (String.eqb (ksaFlag flags) ""))
                       (negb (String.eqb (podFlag flags) ""))) eqn:Htest.
    + unfold main in Hrest. rewrite Htest in Hrest. discriminate.
    + now apply validation_test.
  - intros Hno. rewrite (Hrejected Hno). split; reflexivity.
Qed.

End Validation.

(** ** The outcome of the access check in [main] *)

Section AccessOutcome.
Context `{GoLib} (W : World).

Lemma report_prefix_text (flags : Flags) :
  report_prefix flags
  = if String.eqb (podFlag flags) "" then ""
    else "Pod " +:+ Quote (podFlag flags) +:+ " uses ".
Proof.
  unfold report_prefix. destruct (String.eqb (podFlag flags) ""); reflexivity.
Qed.

Lemma Sprintf_no_access (prefix ksa gsa : string) :
  fmt.Sprintf
    "%sKSA %q, which links to GSA %q, but that GSA does not grant access to the KSA"
    [AString prefix; AString ksa; AString gsa]
  = prefix +:+ "KSA " +:+ Quote ksa +:+ ", which links to GSA " +:+ Quote gsa
      +:+ ", but that GSA does not grant access to the KSA".
Proof. unfold fmt.Sprintf. simpl. reflexivity. Qed.

Lemma Sprintf_check_error (err : error) :
  fmt.Sprintf "Error checking the KSAs access on the GSA: %v" [AError err]
  = "Error checking the KSAs access on the GSA: " +:+ errText err.
Proof. unfold fmt.Sprintf. simpl. now rewrite append_empty_r. Qed.

(** Everything before the access check went well. *)
Variables (flags : Flags) (cfg : Config) (ksa gsa wiPool : string).
Variables (p l n : string) (kerr : option error).
Hypothesis flags_ok : exactly_one flags.
Hypothesis config_ok :
  (GetRESTConfig W (serverFlag flags) (kubeconfigFlag flags)).2 = Ret (Some cfg, None).
Hypothesis client_ok : NewForConfig W cfg = None.
Hypothesis ksa_ok :
  if String.eqb (podFlag flags) "" then ksa = ksaFlag flags
  else (getPodKSA W cfg (nsFlag flags) (podFlag flags)).2 = Ret (ksa, None).
Hypothesis gsa_ok : (getKSAsWIAnotation W cfg (nsFlag flags) ksa).2 = Ret (gsa, None).
Hypothesis kubeconfig_read : (getClusterFromKubeconfig W).2 = Ret (p, l, n, kerr).
Hypothesis pool_ok :
  (getWIPool W match kerr with
               | None => getClusterAPIName p l n
               | Some _ =>
                   getClusterAPIName (clusterProjectFlag flags)
                     (clusterLocationFlag flags) (clusterNameFlag flags)
               end).2 = Ret (wiPool, None).

(** What [main] does with each answer of the check. *)
Lemma main_at_access_check :
  match (ksaHasAccessToGSA W wiPool (nsFlag flags) ksa gsa).2 with
  | Ret (_, Some err) =>
      (main W flags).2
      = Fatal ("Error checking the KSAs access on the GSA: " +:+ errText err)
  | Ret (false, None) => (main W flags).2 = Fatal (no_access_report flags ksa gsa)
  | Ret (true, None) => True
  | Fatal msg => (main W flags).2 = Fatal msg
  | Panicked pv => (main W flags).2 = Panicked pv
  end.
Proof.
  assert (Hclient : (NewForConfigOrDie W (Some cfg)).2 = Ret cfg).
  { unfold NewForConfigOrDie. rewrite snd_bind. simpl. now rewrite client_ok. }
  assert (Htest := proj2 (validation_test flags) flags_ok).
  unfold main. rewrite Htest. cbv iota.
  rewrite (snd_bind_ret _ _ _ config_ok). cbv beta iota.
  rewrite (snd_bind_ret _ _ _ Hclient). cbv beta iota.
  pose proof ksa_ok as Hksa. revert Hksa.
  unfold no_access_report, report_prefix.
  destruct (ksaHasAccessToGSA W wiPool (nsFlag flags) ksa gsa).2
    as [[[|] [err|]] | msg | pv] eqn:Hcheck; try exact (fun _ => I).
  all: destruct (String.eqb (podFlag flags) ""); intros Hksa; unfold negb; cbv iota;
    [ rewrite bind_ret, <- Hksa
    | rewrite snd_bind, (snd_bind_ret _ _ _ Hksa); cbv beta iota;
      rewrite snd_ret ];
    cbv beta iota.
  all: rewrite (snd_bind_ret _ _ _ gsa_ok); cbv beta iota.
  all: rewrite (snd_bind_ret _ _ _ kubeconfig_read); cbv beta iota.
  all: pose proof pool_ok as Hpool; revert Hpool.
  all: destruct kerr as [e|]; intros Hpool; cbv beta iota.
  all: rewrite (snd_bind_ret _ _ _ Hpool); cbv beta iota.
  all: rewrite snd_bind, Hcheck; cbv beta iota; try reflexivity.
  all: unfold log_Fatalf, snd.
  all: now rewrite ?Sprintf_check_error, ?Sprintf_no_access.
Qed.

(** C6: with the policy in hand and no granting binding, the check returns
    (false, nil); [main] then stops with the no-access sentence, whereas an
    error from the check makes it stop with an "Error checking ..." message,
    and the two can never be the same text. *)
Theorem no_access_is_a_diagnostic :
  (forall resource policy,
     iam_NewService W = None ->
     (getGSAAPIResource gsa).2 = Ret resource ->
     ServiceAccounts_GetIamPolicy W resource = Ok policy ->
     ~ grants policy (ksaIAMPolicyMember wiPool (nsFlag flags) ksa) ->
     (ksaHasAccessToGSA W wiPool (nsFlag flags) ksa gsa).2 = Ret (false, None))
  /\
  ((ksaHasAccessToGSA W wiPool (nsFlag flags) ksa gsa).2 = Ret (false, None) ->
   (main W flags).2 = Fatal (no_access_report flags ksa gsa))
  /\
  (forall hasAccess err,
     (ksaHasAccessToGSA W wiPool (nsFlag flags) ksa gsa).2 = Ret (hasAccess, Some err) ->
     (main W flags).2
     = Fatal ("Error checking the KSAs access on the GSA: " +:+ errText err))
  /\
  (forall err,
     no_access_report flags ksa gsa
     <> "Error checking the KSAs access on the GSA: " +:+ errText err).
Proof.
  pose proof main_at_access_check as Hmain.
  split; [| split; [| split]].
  - intros resource policy. apply ksaHasAccessToGSA_not_granted.
  - intros Hcheck. now rewrite Hcheck in Hmain.
  - intros hasAccess err Hcheck. rewrite Hcheck in Hmain. now destruct hasAccess.
  - intros err. unfold no_access_report. rewrite report_prefix_text.
    destruct (String.eqb (podFlag flags) ""); simpl; discriminate.
Qed.

End AccessOutcome.

(** ** Which cluster is asked about *)

Section ClusterChoice.
Context `{GoLib} (W : World).

(** When the current user cannot be determined, [getClusterFromKubeconfig]
    hands back three empty strings and a nil error. *)
Lemma getClusterFromKubeconfig_unknown_user (e : error) :
  user_Current W = Err e ->
  getClusterFromKubeconfig W = ([EvUserCurrent], Ret ("", "", "", None)).
Proof. intros Husr. unfold getClusterFromKubeconfig. now rewrite Husr. Qed.

(** When the file cannot be opened, or not decoded, the error is handed on. *)
Lemma getClusterFromKubeconfig_open_fails (homeDir : string) (e : error) :
  user_Current W = Ok homeDir ->
  os_Open W (default_kubeconfig homeDir) = Some e ->
  (getClusterFromKubeconfig W).2 = Ret ("", "", "", Some e).
Proof.
  intros Husr Hopen. unfold getClusterFromKubeconfig.
  rewrite snd_bind, Husr. simpl. rewrite snd_bind. simpl. now rewrite Hopen.
Qed.

Lemma getClusterFromKubeconfig_decode_fails (homeDir : string) (e : error) :
  user_Current W = Ok homeDir ->
  os_Open W (default_kubeconfig homeDir) = None ->
  Decode_CurrentContext W (default_kubeconfig homeDir) = Err e ->
  (getClusterFromKubeconfig W).2 = Ret ("", "", "", Some e).
Proof.
  intros Husr Hopen Hdec. unfold getClusterFromKubeconfig.
  rewrite snd_bind, Husr. simpl. rewrite snd_bind. simpl. rewrite Hopen.
  rewrite snd_bind. simpl. now rewrite Hdec.
Qed.

End ClusterChoice.

(** C5 (the code departs from it): with the current user unknown and the
    three cluster flags given, [main] asks GKE about the cluster with three
    empty names and never about the one the flags name. *)
Theorem cluster_flags_ignored_when_user_unknown :
  (@getClusterFromKubeconfig plainLib (inPod grantingPolicy)).2 = Ret ("", "", "", None)
  /\ EvClustersGet "projects//locations//clusters/"
       ∈ (@main plainLib (inPod grantingPolicy) clusterFlags).1
  /\ EvClustersGet "projects/proj/locations/us-central1/clusters/c1"
       ∉ (@main plainLib (inPod grantingPolicy) clusterFlags).1.
Proof.
  split; [reflexivity | split]; apply (bool_decide_unpack _); vm_compute; exact I.
Qed.

(** ** The theorems at work on the concrete cluster *)

Lemma not_granted_by_loop (policy : Policy) (principal : string) :
  ksaBindingLoop principal (Bindings policy) = false -> ~ grants policy principal.
Proof.
  intros Hloop Hgrant. apply ksaBindingLoop_true in Hgrant. congruence.
Qed.

Lemma ksaHasAccessToGSA_iff_witness :
  (@ksaHasAccessToGSA plainLib (laptop grantingPolicy)
     samplePool "my-ns" "agent" sampleGSA).2 = Ret (true, None)
  /\
  (@ksaHasAccessToGSA plainLib (laptop nearMissPolicy)
     samplePool "my-ns" "agent" sampleGSA).2 = Ret (false, None).
Proof.
  split.
  - pose proof (@ksaHasAccessToGSA_iff plainLib (laptop grantingPolicy)
                  samplePool "my-ns" "agent" sampleGSA) as Hthm.
    cbv zeta in Hthm. apply (proj1 Hthm).
    exists sampleResource, grantingPolicy.
    repeat split.
    exists (mkBinding "roles/iam.workloadIdentityUser"
              ["serviceAccount:proj.svc.id.goog[my-ns/agent]"]).
    split; [left | split; [left; reflexivity | left]].
  - pose proof (@ksaHasAccessToGSA_iff plainLib (laptop nearMissPolicy)
                  samplePool "my-ns" "agent" sampleGSA) as Hthm.
    cbv zeta in Hthm.
    apply (proj2 Hthm sampleResource nearMissPolicy);
      [reflexivity | reflexivity | reflexivity |].
    apply not_granted_by_loop. vm_compute. reflexivity.
Defined.

Lemma main_validates_flags_witness :
  (exists rest, (@main plainLib (laptop grantingPolicy) ksaFlags).1
                = EvInClusterConfig :: rest)
  /\
  @main plainLib (laptop grantingPolicy) bothFlags
  = ([], Fatal "Exactly one of --ksa and --pod must be specified.").
Proof.
  pose proof (@main_validates_flags plainLib (laptop grantingPolicy) ksaFlags)
    as [Hgo _].
  pose proof (@main_validates_flags plainLib (laptop grantingPolicy) bothFlags)
    as [_ Hstop].
  split.
  - apply Hgo. left. split; [discriminate | reflexivity].
  - apply Hstop. intros [[_ Hpod] | [Hksa _]]; discriminate.
Defined.

Lemma no_access_is_a_diagnostic_witness :
  (@main plainLib (laptop nearMissPolicy) podFlags).2
  = Fatal (@no_access_report plainLib podFlags "agent" sampleGSA).
Proof.
  pose proof (@no_access_is_a_diagnostic plainLib (laptop nearMissPolicy) podFlags
                (mkConfig "https://10.0.0.1") "agent" sampleGSA samplePool
                "proj" "us-central1" "c1" None) as Hthm.
  destruct Hthm as (Hcheck & Hmain & _).
  - right. split; [reflexivity | discriminate].
  - reflexivity.
  - reflexivity.
  - reflexivity.
  - reflexivity.
  - reflexivity.
  - reflexivity.
  - apply Hmain. apply (Hcheck sampleResource nearMissPolicy);
      [reflexivity | reflexivity | reflexivity |].
    apply not_granted_by_loop. vm_compute. reflexivity.
Defined.

Lemma getGSAsRolesOnProject_roles_witness :
  @getGSAsRolesOnProject plainLib (laptop grantingPolicy) "proj" sampleGSA
  = ([EvCloudResourceManagerNewService; EvGetProjectIamPolicy "proj"],
     Ret (["roles/storage.admin"; "roles/pubsub.editor"], None)).
Proof.
  pose proof (@getGSAsRolesOnProject_roles plainLib (laptop grantingPolicy)
                "proj" sampleGSA projectPolicy eq_refl eq_refl) as Hthm.
  vm_compute in Hthm. vm_compute. exact Hthm.
Defined.

Lemma determineProject_spec_witness :
  @determineProject plainLib (laptop grantingPolicy) "other-project"
  = ([], Ret ("other-project", None))
  /\
  @determineProject plainLib (laptop grantingPolicy) ""
  = ([EvExec ["gcloud"; "config"; "get-value"; "core/project"]], Ret ("proj", None)).
Proof.
  split.
  - apply (@determineProject_spec plainLib (laptop grantingPolicy) "other-project").
    discriminate.
  - apply (@determineProject_spec plainLib (laptop grantingPolicy) "").
    reflexivity.
Defined.

Lemma getClusterFromKubeconfig_panics_witness :
  @getClusterFromKubeconfig plainLib minikube
  = ([EvUserCurrent; EvOpen "/home/u/.kube/config"; EvDecode "/home/u/.kube/config"],
     Panicked (IndexOutOfRange 1 1)).
Proof.
  apply (@getClusterFromKubeconfig_panics plainLib minikube "/home/u" "minikube");
    [reflexivity | reflexivity | reflexivity | simpl; lia].
Defined.

(** * Further properties of the code *)

(** ** Texts of the wrapped errors *)

Section ErrorTexts.
Context `{GoLib}.

Lemma Errorf_wrap (text : string) (cause : error) (format : string) :
  fmt.doPrintf true format [AError cause] = text +:+ errText cause ->
  fmt.wrapsError format [AError cause] = true ->
  fmt.Errorf format [AError cause] = mkError "*fmt.wrapError" (text +:+ errText cause).
Proof. intros Htext Hwrap. unfold fmt.Errorf. now rewrite Htext, Hwrap. Qed.

Lemma Errorf_iam_service (cause : error) :
  fmt.Errorf "creating IAM.Service: %w" [AError cause]
  = mkError "*fmt.wrapError" ("creating IAM.Service: " +:+ errText cause).
Proof. apply Errorf_wrap; [simpl; now rewrite append_empty_r | reflexivity]. Qed.

Lemma Errorf_crm_service (cause : error) :
  fmt.Errorf "creating CloudResourceManager.Service: %w" [AError cause]
  = mkError "*fmt.wrapError"
            ("creating CloudResourceManager.Service: " +:+ errText cause).
Proof. apply Errorf_wrap; [simpl; now rewrite append_empty_r | reflexivity]. Qed.

Lemma Errorf_gke_service (cause : error) :
  fmt.Errorf "creating GKE.Service: %w" [AError cause]
  = mkError "*fmt.wrapError" ("creating GKE.Service: " +:+ errText cause).
Proof. apply Errorf_wrap; [simpl; now rewrite append_empty_r | reflexivity]. Qed.

Lemma Errorf_quoted (before after name : string) (cause : error) (format : string) :
  fmt.doPrintf true format [AString name; AError cause]
  = before +:+ Quote name +:+ after +:+ errText cause ->
  fmt.wrapsError format [AString name; AError cause] = true ->
  fmt.Errorf format [AString name; AError cause]
  = mkError "*fmt.wrapError" (before +:+ Quote name +:+ after +:+ errText cause).
Proof. intros Htext Hwrap. unfold fmt.Errorf. now rewrite Htext, Hwrap. Qed.

Lemma Errorf_gsa_policy (resource : string) (cause : error) :
  fmt.Errorf "getting GSA %q IAMPolicy: %w" [AString resource; AError cause]
  = mkError "*fmt.wrapError"
            ("getting GSA " +:+ Quote resource +:+ " IAMPolicy: " +:+ errText cause).
Proof. apply Errorf_quoted; [simpl; now rewrite append_empty_r | reflexivity]. Qed.

Lemma Errorf_project_policy (project : string) (cause : error) :
  fmt.Errorf "getting Project %q IAMPolicy: %w" [AString project; AError cause]
  = mkError "*fmt.wrapError"
            ("getting Project " +:+ Quote project +:+ " IAMPolicy: " +:+ errText cause).
Proof. apply Errorf_quoted; [simpl; now rewrite append_empty_r | reflexivity]. Qed.

Lemma Errorf_gke_cluster (name : string) (cause : error) :
  fmt.Errorf "getting GKE Cluster %q: %w" [AString name; AError cause]
  = mkError "*fmt.wrapError"
            ("getting GKE Cluster " +:+ Quote name +:+ ": " +:+ errText cause).
Proof. apply Errorf_quoted; [simpl; now rewrite append_empty_r | reflexivity]. Qed.

Lemma Errorf_no_annotation :
  fmt.Errorf "ksa does not have the WI annotation, %q" [AString wiGSAAnnotation]
  = mkError "*errors.errorString"
            ("ksa does not have the WI annotation, "
               +:+ Quote "iam.gke.io/gcp-service-account").
Proof. unfold fmt.Errorf. simpl. now rewrite append_empty_r. Qed.

Lemma Sprintf_cluster (project location name : string) :
  getClusterAPIName project location name
  = "projects/" +:+ project +:+ "/locations/" +:+ location +:+ "/clusters/" +:+ name.
Proof. unfold getClusterAPIName, fmt.Sprintf. simpl. now rewrite append_empty_r. Qed.

Lemma getGSAAPIResource_no_at (gsaEmail : string) :
  count_byte "@" gsaEmail = 0 ->
  getGSAAPIResource gsaEmail = ([], Panicked (IndexOutOfRange 1 1)).
Proof.
  intros Hat. unfold getGSAAPIResource.
  change (strings.Split gsaEmail "@") with (strings.Split gsaEmail (byte "@")).
  now rewrite Split_byte_absent.
Qed.

End ErrorTexts.

(** ** The look-ups one by one *)

Section Lookups.
Context `{GoLib} (W : World).

(** X1: [getKSAsWIAnotation] yields (gsa, nil) exactly when the service
    account was read and carries the annotation with value gsa; a service
    account without the annotation yields the empty string and the error
    that names the missing annotation. *)
Theorem getKSAsWIAnotation_spec (client : Config) (ns ksaName : string) :
  (forall gsa,
     (getKSAsWIAnotation W client ns ksaName).2 = Ret (gsa, None) <->
     exists annotations,
       ServiceAccounts_Get W client ns ksaName = Ok annotations /\
       annotations !! "iam.gke.io/gcp-service-account" = Some gsa)
  /\
  (forall annotations,
     ServiceAccounts_Get W client ns ksaName = Ok annotations ->
     annotations !! "iam.gke.io/gcp-service-account" = None ->
     (getKSAsWIAnotation W client ns ksaName).2
     = Ret ("", Some (mkError "*errors.errorString"
                        ("ksa does not have the WI annotation, "
                           +:+ Quote "iam.gke.io/gcp-service-account")))).
Proof.
  unfold getKSAsWIAnotation. rewrite snd_bind. cbn [snd call].
  split.
  - intros gsa. split.
    + destruct (ServiceAccounts_Get W client ns ksaName) as [annotations | err];
        [| discriminate].
      destruct (annotations !! wiGSAAnnotation) as [gsa' |] eqn:Hann;
        [| discriminate].
      intros Hret. injection Hret as ->. exists annotations. split; [reflexivity | exact Hann].
    + intros (annotations & -> & Hann).
      change (annotations !! wiGSAAnnotation = Some gsa) in Hann. now rewrite Hann.
  - intros annotations -> Hann.
    change (annotations !! wiGSAAnnotation = None) in Hann. rewrite Hann.
    rewrite Errorf_no_annotation. reflexivity.
Qed.

(** X2: [GetRESTConfig] always returns, and with exactly one of a
    configuration and an error. *)
Theorem GetRESTConfig_config_xor_error (serverURL kubeconfig : string) :
  (exists c, (GetRESTConfig W serverURL kubeconfig).2 = Ret (Some c, None)) \/
  (exists err, (GetRESTConfig W serverURL kubeconfig).2 = Ret (None, Some err)).
Proof.
  unfold GetRESTConfig.
  destruct (negb (String.eqb kubeconfig "")); rewrite snd_bind; cbn [snd call].
  - destruct (BuildConfigFromFlags W serverURL kubeconfig); simpl; eauto.
  - destruct (InClusterConfig W); [simpl; eauto |].
    rewrite snd_bind; cbn [snd call].
    destruct (user_Current W) as [homeDir |]; [| simpl; eauto].
    rewrite snd_bind; cbn [snd call].
    destruct (BuildConfigFromFlags W "" (default_kubeconfig homeDir)); simpl; eauto.
Qed.

(** X3: with a kubeconfig path given, only that file is tried: its
    configuration or its error is the result, and neither the in-cluster
    configuration nor the home directory is looked at. *)
Theorem GetRESTConfig_explicit (serverURL kubeconfig : string) :
  kubeconfig <> "" ->
  GetRESTConfig W serverURL kubeconfig
  = ([EvBuildConfigFromFlags serverURL kubeconfig],
     Ret match BuildConfigFromFlags W serverURL kubeconfig with
         | Ok c => (Some c, None)
         | Err err => (None, Some err)
         end).
Proof.
  intros Hne. unfold GetRESTConfig.
  destruct (String.eqb_spec kubeconfig "") as [-> | _]; [congruence |].
  unfold bind, call. simpl.
  destruct (BuildConfigFromFlags W serverURL kubeconfig); reflexivity.
Qed.

(** X4: without a kubeconfig path the in-cluster configuration wins and
    nothing else is read; the server address plays no part; and when both
    the in-cluster and the home configuration fail, the error is always the
    same fixed text, whatever the causes were. *)
Theorem GetRESTConfig_fallback (serverURL : string) :
  (forall c, InClusterConfig W = Ok c ->
             GetRESTConfig W serverURL "" = ([EvInClusterConfig], Ret (Some c, None)))
  /\
  (forall otherURL, GetRESTConfig W serverURL "" = GetRESTConfig W otherURL "")
  /\
  (forall err, (GetRESTConfig W serverURL "").2 = Ret (None, Some err) ->
               errText err = "could not create a valid kubeconfig").
Proof.
  split; [| split].
  - intros c Hin. unfold GetRESTConfig. simpl. now rewrite Hin.
  - reflexivity.
  - intros err. unfold GetRESTConfig. simpl. rewrite snd_bind; cbn [snd call].
    destruct (InClusterConfig W); [discriminate |].
    rewrite snd_bind; cbn [snd call].
    destruct (user_Current W) as [homeDir |];
      [| simpl; intros Hret; now injection Hret as <-].
    rewrite snd_bind; cbn [snd call].
    destruct (BuildConfigFromFlags W "" (default_kubeconfig homeDir));
      [discriminate | simpl; intros Hret; now injection Hret as <-].
Qed.

(** X5: [getWIPool] panics exactly when the cluster was read and has no
    workload-identity configuration, and then on a nil pointer; it yields
    (pool, nil) exactly when the cluster was read and its configuration
    names that pool. *)
Theorem getWIPool_outcomes (clusterAPIName : string) :
  (forall pv,
     (getWIPool W clusterAPIName).2 = Panicked pv <->
     pv = NilDereference /\ container_NewService W = None /\
     exists cluster,
       Clusters_Get W clusterAPIName = Ok cluster /\
       WorkloadIdentityConfig_ cluster = None)
  /\
  (forall pool,
     (getWIPool W clusterAPIName).2 = Ret (pool, None) <->
     container_NewService W = None /\
     exists cluster wic,
       Clusters_Get W clusterAPIName = Ok cluster /\
       WorkloadIdentityConfig_ cluster = Some wic /\ WorkloadPool wic = pool).
Proof.
  unfold getWIPool. rewrite snd_bind. cbn [snd call].
  destruct (container_NewService W) as [cause |].
  { split; intros x; (split; [discriminate |]).
    - intros (_ & Hsvc & _). discriminate Hsvc.
    - intros (Hsvc & _). discriminate Hsvc. }
  rewrite snd_bind. cbn [snd call].
  destruct (Clusters_Get W clusterAPIName) as [cluster | cause].
  2:{ split; intros x; (split; [discriminate |]).
      - intros (_ & _ & c & Hc & _). discriminate Hc.
      - intros (_ & c & w & Hc & _). discriminate Hc. }
  destruct (WorkloadIdentityConfig_ cluster) as [wic |] eqn:Hwic.
  - split; intros x; split.
    + discriminate.
    + intros (_ & _ & c & Hc & Hnone). injection Hc as <-. congruence.
    + intros Hret. injection Hret as <-. split; [reflexivity |]. eauto.
    + intros (_ & c & w & Hc & Hw & <-). injection Hc as <-.
      rewrite Hwic in Hw. now injection Hw as <-.
  - split; intros x; split.
    + intros Hp. injection Hp as <-. repeat split. eauto.
    + intros (-> & _). reflexivity.
    + discriminate.
    + intros (_ & c & w & Hc & Hw & _). injection Hc as <-. congruence.
Qed.

End Lookups.

(** ** The cluster named by the kubeconfig *)

Lemma Split_four (c : ascii) (a x y z tail : string) :
  count_byte c a = 0 -> count_byte c x = 0 ->
  count_byte c y = 0 -> count_byte c z = 0 ->
  ends_piece c tail ->
  exists rest,
    strings.Split (a +:+ String c (x +:+ String c (y +:+ String c (z +:+ tail)))) (byte c)
    = a :: x :: y :: z :: rest.
Proof.
  intros Ha Hx Hy Hz Htail.
  destruct (Split_byte_first c z tail Hz Htail) as [rest Hrest].
  exists rest. now rewrite !Split_byte_app, Hrest by assumption.
Qed.

Section KubeconfigCluster.
Context `{GoLib} (W : World).

(** X6: for a current context first_P_L_N, possibly followed by more
    '_'-separated pieces, where none of the four pieces holds a '_', the
    cluster read from the kubeconfig is (P, L, N) with a nil error; the
    first piece is not looked at. *)
Theorem getClusterFromKubeconfig_pieces (homeDir first P L N tail : string) :
  user_Current W = Ok homeDir ->
  os_Open W (default_kubeconfig homeDir) = None ->
  Decode_CurrentContext W (default_kubeconfig homeDir)
  = Ok (first +:+ "_" +:+ P +:+ "_" +:+ L +:+ "_" +:+ N +:+ tail) ->
  count_byte "_" first = 0 -> count_byte "_" P = 0 ->
  count_byte "_" L = 0 -> count_byte "_" N = 0 ->
  ends_piece "_" tail ->
  getClusterFromKubeconfig W
  = ([EvUserCurrent; EvOpen (default_kubeconfig homeDir);
      EvDecode (default_kubeconfig homeDir)],
     Ret (P, L, N, None)).
Proof.
  intros Husr Hopen Hdec Hfirst HP HL HN Htail.
  destruct (Split_four "_" first P L N tail Hfirst HP HL HN Htail) as [rest Hsplit].
  unfold getClusterFromKubeconfig.
  rewrite Husr. unfold bind at 1. simpl.
  rewrite Hopen. unfold bind at 1. simpl.
  rewrite Hdec. unfold bind at 1. simpl.
  change (strings.Split (first +:+ String "_" (P +:+ String "_" (L +:+ String "_" (N +:+ tail)))) "_")
    with (strings.Split (first +:+ String "_" (P +:+ String "_" (L +:+ String "_" (N +:+ tail))))
                        (byte "_")).
  rewrite Hsplit. reflexivity.
Qed.

End KubeconfigCluster.

(** ** More on the access check *)

Section AccessCheckMore.
Context `{GoLib}.

(** X7: when [ksaHasAccessToGSA] returns an error, access is reported as
    false, and the error wraps its cause: the failure to create the IAM
    client, or the failure to fetch the policy of the GSA resource. *)
Theorem ksaHasAccessToGSA_error (W : World) (wiPool ns ksaName gsaEmail : string)
        (hasAccess : bool) (err : error) :
  (ksaHasAccessToGSA W wiPool ns ksaName gsaEmail).2 = Ret (hasAccess, Some err) ->
  hasAccess = false /\
  ((exists cause,
      iam_NewService W = Some cause /\
      err = mkError "*fmt.wrapError" ("creating IAM.Service: " +:+ errText cause))
   \/
   (exists resource cause,
      iam_NewService W = None /\
      (getGSAAPIResource gsaEmail).2 = Ret resource /\
      ServiceAccounts_GetIamPolicy W resource = Err cause /\
      err = mkError "*fmt.wrapError"
              ("getting GSA " +:+ Quote resource +:+ " IAMPolicy: " +:+ errText cause))).
Proof.
  unfold ksaHasAccessToGSA. rewrite snd_bind. cbn [snd call].
  destruct (iam_NewService W) as [cause |].
  - rewrite snd_ret, Errorf_iam_service. intros Hret. injection Hret as <- <-.
    split; [reflexivity | left; eauto].
  - rewrite snd_bind.
    destruct (getGSAAPIResource gsaEmail).2 as [resource | msg | pv] eqn:Hres;
      [| discriminate | discriminate].
    rewrite snd_bind. cbn [snd call].
    destruct (ServiceAccounts_GetIamPolicy W resource) as [policy | cause] eqn:Hpol.
    + destruct (ksaBindingLoop _ _); discriminate.
    + rewrite snd_ret, Errorf_gsa_policy. intros Hret. injection Hret as <- <-.
      split; [reflexivity | right]. exists resource, cause. repeat split. exact Hpol.
Qed.

(** X8: the answer of the check depends on which bindings the policy holds,
    not on their order or number: a policy that holds every binding of a
    granting policy grants too, and two policies with the same bindings get
    the same answer. *)
Theorem ksaHasAccessToGSA_monotone (W1 W2 : World)
        (wiPool ns ksaName gsaEmail resource : string) (policy1 policy2 : Policy) :
  iam_NewService W1 = None -> iam_NewService W2 = None ->
  (getGSAAPIResource gsaEmail).2 = Ret resource ->
  ServiceAccounts_GetIamPolicy W1 resource = Ok policy1 ->
  ServiceAccounts_GetIamPolicy W2 resource = Ok policy2 ->
  ((forall binding, binding ∈ Bindings policy1 -> binding ∈ Bindings policy2) ->
   (ksaHasAccessToGSA W1 wiPool ns ksaName gsaEmail).2 = Ret (true, None) ->
   (ksaHasAccessToGSA W2 wiPool ns ksaName gsaEmail).2 = Ret (true, None))
  /\
  ((forall binding, binding ∈ Bindings policy1 <-> binding ∈ Bindings policy2) ->
   (ksaHasAccessToGSA W1 wiPool ns ksaName gsaEmail).2
   = (ksaHasAccessToGSA W2 wiPool ns ksaName gsaEmail).2).
Proof.
  intros Hsvc1 Hsvc2 Hres Hpol1 Hpol2.
  rewrite (ksaHasAccessToGSA_fetched W1 _ _ _ _ _ _ Hsvc1 Hres Hpol1).
  rewrite (ksaHasAccessToGSA_fetched W2 _ _ _ _ _ _ Hsvc2 Hres Hpol2).
  assert (Hmono : forall bs1 bs2 : list Binding,
             (forall b, b ∈ bs1 -> b ∈ bs2) ->
             ksaBindingLoop (ksaIAMPolicyMember wiPool ns ksaName) bs1 = true ->
             ksaBindingLoop (ksaIAMPolicyMember wiPool ns ksaName) bs2 = true).
  { intros bs1 bs2 Hsub Hloop. apply ksaBindingLoop_true in Hloop.
    destruct Hloop as (b & Hin & Hrole & Hmem).
    apply ksaBindingLoop_true. exists b. auto. }
  split.
  - intros Hsub Hret. injection Hret as Hloop.
    now rewrite (Hmono _ _ Hsub Hloop).
  - intros Hsame.
    destruct (ksaBindingLoop _ (Bindings policy1)) eqn:H1;
      destruct (ksaBindingLoop _ (Bindings policy2)) eqn:H2; try reflexivity.
    + rewrite (Hmono (Bindings policy1) (Bindings policy2)) in H2;
        [discriminate | intros b; apply Hsame | exact H1].
    + rewrite (Hmono (Bindings policy2) (Bindings policy1)) in H1;
        [discriminate | intros b; apply Hsame | exact H2].
Qed.

(** X9: for an email without '@' the check creates the IAM client first and
    only then panics, before any policy is fetched; when the client cannot
    be created it returns that error and does not panic. *)
Theorem ksaHasAccessToGSA_no_at (W : World) (wiPool ns ksaName gsaEmail : string) :
  count_byte "@" gsaEmail = 0 ->
  ksaHasAccessToGSA W wiPool ns ksaName gsaEmail
  = ([EvIamNewService],
     match iam_NewService W with
     | None => Panicked (IndexOutOfRange 1 1)
     | Some cause =>
         Ret (false, Some (mkError "*fmt.wrapError"
                             ("creating IAM.Service: " +:+ errText cause)))
     end).
Proof.
  intros Hat. unfold ksaHasAccessToGSA.
  destruct (iam_NewService W) as [cause |]; unfold bind at 1, call; cbv beta iota.
  - rewrite Errorf_iam_service. reflexivity.
  - rewrite (getGSAAPIResource_no_at _ Hat). reflexivity.
Qed.

(** X10: when [getGSAsRolesOnProject] fails, the roles are empty and the
    error wraps its cause; when the Resource Manager client cannot be
    created, the policy is not asked for. *)
Theorem getGSAsRolesOnProject_errors (W : World) (project gsaEmail : string) :
  (forall cause,
     cloudresourcemanager_NewService W = Some cause ->
     getGSAsRolesOnProject W project gsaEmail
     = ([EvCloudResourceManagerNewService],
        Ret ([], Some (mkError "*fmt.wrapError"
                         ("creating CloudResourceManager.Service: " +:+ errText cause)))))
  /\
  (forall cause,
     cloudresourcemanager_NewService W = None ->
     Projects_GetIamPolicy W project = Err cause ->
     getGSAsRolesOnProject W project gsaEmail
     = ([EvCloudResourceManagerNewService; EvGetProjectIamPolicy project],
        Ret ([], Some (mkError "*fmt.wrapError"
                         ("getting Project " +:+ Quote project +:+ " IAMPolicy: "
                            +:+ errText cause))))).
Proof.
  unfold getGSAsRolesOnProject. split.
  - intros cause ->. unfold bind at 1, call; cbv beta iota.
    rewrite Errorf_crm_service. reflexivity.
  - intros cause -> Hpol. unfold bind at 1, call; cbv beta iota.
    rewrite Hpol. unfold bind at 1; cbv beta iota.
    rewrite Errorf_project_policy. reflexivity.
Qed.

End AccessCheckMore.

(** ** Traces of runs *)

Lemma bind_assoc {A B C} (m : M A) (k : A -> M B) (k' : B -> M C) :
  bind (bind m k) k' = bind m (fun a => bind (k a) k').
Proof.
  destruct m as [t [a | msg | pv]]; unfold bind; try reflexivity.
  destruct (k a) as [t1 [b | msg | pv]]; try reflexivity.
  destruct (k' b) as [t2 r]. now rewrite app_assoc.
Qed.

Lemma closed_bind {A B} (Q : M B -> Prop) (m : M A) (k : A -> M B) (a : A) :
  prefix_closed Q -> m.2 = Ret a -> Q (k a) -> Q (bind m k).
Proof.
  destruct m as [t r]. simpl. intros HQ -> Hk. unfold bind.
  specialize (HQ t (k a) Hk). now destruct (k a).
Qed.

Lemma ends_with_closed {A} (e : Event) (r : Res A) : prefix_closed (ends_with e r).
Proof.
  intros t x [t0 ->]. exists (t ++ t0)%list. simpl. now rewrite app_assoc.
Qed.

Lemma in_trace_closed {A} (e : Event) : prefix_closed (@in_trace A e).
Proof.
  intros t x Hin. unfold in_trace in *. simpl.
  apply elem_of_app. now right.
Qed.

Lemma in_trace_here {A B} (e : Event) (m : M A) (k : A -> M B) :
  in_trace e m -> in_trace e (bind m k).
Proof.
  unfold in_trace. destruct m as [t [a | msg | pv]]; unfold bind; simpl; try easy.
  intros Hin. destruct (k a). simpl. apply elem_of_app. now left.
Qed.

Lemma never_bind {A B} (e : Event) (m : M A) (k : A -> M B) :
  never e m -> (forall a, never e (k a)) -> never e (bind m k).
Proof.
  unfold never. destruct m as [t [a | msg | pv]]; unfold bind; simpl; try easy.
  intros Hm Hk. specialize (Hk a). destruct (k a) as [t' r]. simpl in *.
  rewrite elem_of_app. tauto.
Qed.

Lemma never_nil {A} (e : Event) (r : Res A) : never e ([], r).
Proof. unfold never. simpl. apply not_elem_of_nil. Qed.

Lemma never_call {A} (e e' : Event) (answer : A) : e' <> e -> never e (call e' answer).
Proof.
  unfold never, call. simpl. intros Hne Hin.
  apply list_elem_of_singleton in Hin. congruence.
Qed.

(** Walks through a run, splitting on every answer of the outside world. *)
Ltac never_solve :=
  repeat first
    [ apply never_nil
    | apply never_call; intros Heq; discriminate Heq
    | apply never_bind; [| intros ?]
    | match goal with
      | |- never _ (match ?x with _ => _ end) => destruct x
      end ].

Section NeverDone.
Context `{GoLib} (W : World).

(** X11: with -ksa given (and so no -pod), [main] never reads a pod,
    whatever the outside world answers. *)
Theorem main_ksa_reads_no_pod (flags : Flags) (ns name : string) :
  podFlag flags = "" -> never (EvPodsGet ns name) (main W flags).
Proof.
  intros Hpod.
  unfold main, GetRESTConfig, NewForConfigOrDie, getKSAsWIAnotation,
    getClusterFromKubeconfig, getWIPool, ksaHasAccessToGSA, getGSAAPIResource,
    determineProject, getGSAsRolesOnProject, log_Fatal, log_Fatalf, ret, lift, panic.
  rewrite Hpod. change (negb (String.eqb "" "")) with false. cbv iota.
  never_solve.
Qed.


End NeverDone.

(** ** Whole runs of [main] *)

Lemma ends_with_last {A B} (e : Event) (r : Res B) (m : M A) (k : A -> M B)
      (t : list Event) (a : A) :
  m = ((t ++ [e])%list, Ret a) -> k a = ([], r) -> ends_with e r (bind m k).
Proof.
  intros -> Hk. exists t. unfold bind. rewrite Hk. now rewrite app_nil_r.
Qed.

Lemma getWIPool_asks `{GoLib} (W : World) (name : string) :
  container_NewService W = None -> in_trace (EvClustersGet name) (getWIPool W name).
Proof.
  intros Hsvc. unfold getWIPool. rewrite Hsvc.
  unfold bind at 1, call. cbv beta iota.
  match goal with
  | |- in_trace _ (let '(t', r) := ?x in _) => destruct x as [t' r] eqn:Hx
  end.
  unfold bind, call in Hx.
  destruct (Clusters_Get W name) as [cluster | cause];
    [destruct (WorkloadIdentityConfig_ cluster) |];
    injection Hx as <- <-; unfold in_trace; simpl;
    apply list_elem_of_further, list_elem_of_here.
Qed.

Section Sprintfs.
Context `{GoLib}.

Lemma map_fmtString_v (l : list string) : map (fmt.fmtString "v") l = l.
Proof. induction l as [| x l IH]; simpl; [reflexivity | now rewrite IH]. Qed.

Lemma Sprintf_roles (prefix ksa gsa project : string) (roles : list string) :
  fmt.Sprintf
    ("%sKSA %q, which links to GSA %q, whose roles on the project %q are %v" +:+ newline)
    [AString prefix; AString ksa; AString gsa; AString project; AStrings roles]
  = prefix +:+ "KSA " +:+ Quote ksa +:+ ", which links to GSA " +:+ Quote gsa
      +:+ ", whose roles on the project " +:+ Quote project +:+ " are ["
      +:+ strings.Join roles " " +:+ "]" +:+ newline.
Proof.
  unfold fmt.Sprintf, newline. simpl.
  now rewrite map_fmtString_v, append_assoc.
Qed.

Lemma Sprintf_annotation_error (err : error) :
  fmt.Sprintf "Error getting the KSA's WI annotation: %v" [AError err]
  = "Error getting the KSA's WI annotation: " +:+ errText err.
Proof. unfold fmt.Sprintf. simpl. now rewrite append_empty_r. Qed.

End Sprintfs.

Section MainRun.
Context `{GoLib} (W : World).

(** Everything up to the look-up of the service account went well. *)
Variables (flags : Flags) (cfg : Config) (ksa : string).
Hypothesis flags_ok : exactly_one flags.
Hypothesis config_ok :
  (GetRESTConfig W (serverFlag flags) (kubeconfigFlag flags)).2 = Ret (Some cfg, None).
Hypothesis client_ok : NewForConfig W cfg = None.
Hypothesis ksa_ok :
  if String.eqb (podFlag flags) "" then ksa = ksaFlag flags
  else (getPodKSA W cfg (nsFlag flags) (podFlag flags)).2 = Ret (ksa, None).

Lemma NewForConfigOrDie_ok : (NewForConfigOrDie W (Some cfg)).2 = Ret cfg.
Proof. unfold NewForConfigOrDie. rewrite snd_bind. simpl. now rewrite client_ok. Qed.

(** One step of a run: the call [Hm] says how it went. *)
Ltac step closed Hm :=
  eapply closed_bind; [closed | exact Hm |]; cbv beta iota.

(** Steps [main] forward to the look-up of the service account. *)
Ltac run_to_ksa closed :=
  unfold main;
  rewrite (proj2 (validation_test flags) flags_ok); cbv iota;
  step closed config_ok;
  step closed NewForConfigOrDie_ok;
  let Hksa := fresh "Hksa" in
  pose proof ksa_ok as Hksa; revert Hksa;
  unfold roles_report, report_prefix;
  destruct (String.eqb (podFlag flags) ""); intros Hksa; unfold negb; cbv iota;
  [ rewrite bind_ret, <- Hksa
  | rewrite bind_assoc; step closed Hksa; rewrite bind_ret ];
  cbv beta iota.

(** X13: when the service account has no workload-identity annotation,
    [main] stops right after reading it, with the message that names the
    missing annotation: no GKE or IAM call follows. *)
Theorem main_stops_without_annotation (annotations : gmap string string) :
  ServiceAccounts_Get W cfg (nsFlag flags) ksa = Ok annotations ->
  annotations !! "iam.gke.io/gcp-service-account" = None ->
  ends_with (EvServiceAccountsGet (nsFlag flags) ksa)
    (Fatal ("Error getting the KSA's WI annotation: "
              +:+ "ksa does not have the WI annotation, "
              +:+ Quote "iam.gke.io/gcp-service-account"))
    (main W flags).
Proof.
  intros Hget Hann.
  assert (Hksa_run :
            getKSAsWIAnotation W cfg (nsFlag flags) ksa
            = (([] ++ [EvServiceAccountsGet (nsFlag flags) ksa])%list,
               Ret ("", Some (mkError "*errors.errorString"
                                ("ksa does not have the WI annotation, "
                                   +:+ Quote "iam.gke.io/gcp-service-account"))))).
  { unfold getKSAsWIAnotation. rewrite Hget.
    unfold bind at 1, call. cbv beta iota.
    change (annotations !! wiGSAAnnotation = None) in Hann. rewrite Hann.
    rewrite Errorf_no_annotation. reflexivity. }
  run_to_ksa ltac:(apply ends_with_closed).
  all: apply (ends_with_last _ _ _ _ _ _ Hksa_run); cbv beta iota.
  all: unfold log_Fatalf; rewrite Sprintf_annotation_error; reflexivity.
Qed.

(** The annotation, the kubeconfig and the pool went well too. *)
Variables (gsa wiPool : string) (p l n : string) (kerr : option error).
Hypothesis gsa_ok : (getKSAsWIAnotation W cfg (nsFlag flags) ksa).2 = Ret (gsa, None).
Hypothesis kubeconfig_read : (getClusterFromKubeconfig W).2 = Ret (p, l, n, kerr).

Ltac run_to_pool closed :=
  run_to_ksa closed;
  step closed gsa_ok;
  step closed kubeconfig_read.

(** X14: once the kubeconfig has been read, the cluster [main] asks GKE
    about is the one of the current context when the read gave no error, and
    the one of the three cluster flags when it gave one. *)
Theorem main_asks_cluster :
  container_NewService W = None ->
  in_trace
    (EvClustersGet
       match kerr with
       | None => "projects/" +:+ p +:+ "/locations/" +:+ l +:+ "/clusters/" +:+ n
       | Some _ =>
           "projects/" +:+ clusterProjectFlag flags
             +:+ "/locations/" +:+ clusterLocationFlag flags
             +:+ "/clusters/" +:+ clusterNameFlag flags
       end)
    (main W flags).
Proof.
  intros Hsvc. rewrite <- !Sprintf_cluster.
  run_to_pool ltac:(apply in_trace_closed).
  all: destruct kerr; cbv beta iota; apply in_trace_here, getWIPool_asks, Hsvc.
Qed.

(** X15: when the cluster is read but workload identity is not enabled on
    it, [main] does not report that: it panics on a nil pointer. *)
Theorem main_panics_without_workload_identity (cluster : Cluster) :
  container_NewService W = None ->
  Clusters_Get W match kerr with
                 | None => getClusterAPIName p l n
                 | Some _ =>
                     getClusterAPIName (clusterProjectFlag flags)
                       (clusterLocationFlag flags) (clusterNameFlag flags)
                 end = Ok cluster ->
  WorkloadIdentityConfig_ cluster = None ->
  (main W flags).2 = Panicked NilDereference.
Proof.
  intros Hsvc Hget Hwic.
  assert (Hpanic : (getWIPool W match kerr with
                                | None => getClusterAPIName p l n
                                | Some _ =>
                                    getClusterAPIName (clusterProjectFlag flags)
                                      (clusterLocationFlag flags) (clusterNameFlag flags)
                                end).2 = Panicked NilDereference).
  { unfold getWIPool. rewrite snd_bind, Hsvc. cbn [snd call].
    rewrite snd_bind, Hget. cbn [snd call]. now rewrite Hwic. }
  unfold main.
  rewrite (proj2 (validation_test flags) flags_ok); cbv iota.
  rewrite (snd_bind_ret _ _ _ config_ok); cbv beta iota.
  rewrite (snd_bind_ret _ _ _ NewForConfigOrDie_ok); cbv beta iota.
  pose proof ksa_ok as Hksa. revert Hksa.
  destruct (String.eqb (podFlag flags) ""); intros Hksa; unfold negb; cbv iota;
    [ rewrite bind_ret, <- Hksa
    | rewrite bind_assoc, (snd_bind_ret _ _ _ Hksa); cbv beta iota; rewrite bind_ret ];
    cbv beta iota.
  all: rewrite (snd_bind_ret _ _ _ gsa_ok); cbv beta iota.
  all: rewrite (snd_bind_ret _ _ _ kubeconfig_read); cbv beta iota.
  all: revert Hpanic; destruct kerr; intros Hpanic; cbv beta iota.
  all: now rewrite snd_bind, Hpanic.
Qed.

Hypothesis pool_ok :
  (getWIPool W match kerr with
               | None => getClusterAPIName p l n
               | Some _ =>
                   getClusterAPIName (clusterProjectFlag flags)
                     (clusterLocationFlag flags) (clusterNameFlag flags)
               end).2 = Ret (wiPool, None).

Ltac run_to_check closed :=
  run_to_pool closed;
  let Hpool := fresh "Hpool" in
  pose proof pool_ok as Hpool; revert Hpool;
  destruct kerr; intros Hpool; cbv beta iota;
  step closed Hpool.

(** X16: when every look-up succeeds and the GSA grants access, [main]
    ends normally, and the last thing it does is print the one line that
    names the KSA, the GSA, the project and the roles. *)
Theorem main_prints_roles (project : string) (roles : list string) :
  (ksaHasAccessToGSA W wiPool (nsFlag flags) ksa gsa).2 = Ret (true, None) ->
  (determineProject W (projectFlag flags)).2 = Ret (project, None) ->
  (getGSAsRolesOnProject W project gsa).2 = Ret (roles, None) ->
  ends_with (EvPrint (roles_report flags ksa gsa project roles)) (Ret ()) (main W flags).
Proof.
  intros Hcheck Hproject Hroles.
  run_to_check ltac:(apply ends_with_closed).
  all: step ltac:(apply ends_with_closed) Hcheck; unfold negb; cbv iota.
  all: step ltac:(apply ends_with_closed) Hproject.
  all: step ltac:(apply ends_with_closed) Hroles.
  all: rewrite Sprintf_roles; exists []; reflexivity.
Qed.

(** X17: when the annotation holds no '@' and the IAM client can be
    created, [main] does not report anything: it panics on the index into
    the split email. *)
Theorem main_panics_on_bad_annotation :
  iam_NewService W = None ->
  count_byte "@" gsa = 0 ->
  (main W flags).2 = Panicked (IndexOutOfRange 1 1).
Proof.
  intros Hsvc Hat.
  pose proof (main_at_access_check W flags cfg ksa gsa wiPool p l n kerr
                flags_ok config_ok client_ok ksa_ok gsa_ok kubeconfig_read pool_ok)
    as Hmain.
  unfold ksaHasAccessToGSA in Hmain.
  rewrite snd_bind, Hsvc in Hmain. cbn [snd call] in Hmain.
  rewrite snd_bind, (getGSAAPIResource_no_at _ Hat) in Hmain.
  exact Hmain.
Qed.

End MainRun.

(** ** Leaving with status 0 *)




Section Status.
Context `{GoLib} (W : World).


End Status.

(** ** The further properties at work on the concrete clusters *)

Lemma getKSAsWIAnotation_spec_witness :
  (@getKSAsWIAnotation plainLib (laptop grantingPolicy) sampleConfig "my-ns" "agent").2
  = Ret (sampleGSA, None)
  /\
  (@getKSAsWIAnotation plainLib unannotated sampleConfig "my-ns" "agent").2
  = Ret ("", Some (mkError "*errors.errorString"
                     ("ksa does not have the WI annotation, "
                        +:+ @Quote plainLib "iam.gke.io/gcp-service-account"))).
Proof.
  split.
  - apply (proj1 (@getKSAsWIAnotation_spec plainLib (laptop grantingPolicy)
                    sampleConfig "my-ns" "agent")).
    eexists. split; [reflexivity | vm_compute; reflexivity].
  - apply (proj2 (@getKSAsWIAnotation_spec plainLib unannotated
                    sampleConfig "my-ns" "agent") ∅); reflexivity.
Defined.

Lemma GetRESTConfig_explicit_witness :
  @GetRESTConfig plainLib (laptop grantingPolicy) "" "/etc/kubeconfig"
  = ([EvBuildConfigFromFlags "" "/etc/kubeconfig"], Ret (Some sampleConfig, None)).
Proof.
  apply (@GetRESTConfig_explicit plainLib (laptop grantingPolicy) "" "/etc/kubeconfig").
  discriminate.
Defined.

Lemma GetRESTConfig_fallback_witness :
  @GetRESTConfig plainLib (inPod grantingPolicy) "https://elsewhere" ""
  = ([EvInClusterConfig], Ret (Some sampleConfig, None)).
Proof.
  apply (proj1 (@GetRESTConfig_fallback plainLib (inPod grantingPolicy)
                  "https://elsewhere")).
  reflexivity.
Defined.

Lemma getWIPool_outcomes_witness :
  (@getWIPool plainLib noWorkloadIdentity "projects/proj/locations/us-central1/clusters/c1").2
  = Panicked NilDereference.
Proof.
  apply (proj1 (@getWIPool_outcomes plainLib noWorkloadIdentity
                  "projects/proj/locations/us-central1/clusters/c1")).
  split; [reflexivity | split; [reflexivity |]].
  exists (mkCluster None). split; reflexivity.
Defined.

Lemma getClusterFromKubeconfig_pieces_witness :
  @getClusterFromKubeconfig plainLib (laptop grantingPolicy)
  = ([EvUserCurrent; EvOpen "/home/u/.kube/config"; EvDecode "/home/u/.kube/config"],
     Ret ("proj", "us-central1", "c1", None)).
Proof.
  apply (@getClusterFromKubeconfig_pieces plainLib (laptop grantingPolicy)
           "/home/u" "gke" "proj" "us-central1" "c1" "");
    [reflexivity | reflexivity | reflexivity | reflexivity | reflexivity
    | reflexivity | reflexivity | now left].
Defined.

Lemma ksaHasAccessToGSA_error_witness :
  false = false /\
  ((exists cause,
      iam_NewService noIamAccess = Some cause /\
      denied_wrapped = mkError "*fmt.wrapError" ("creating IAM.Service: " +:+ errText cause))
   \/
   (exists resource cause,
      iam_NewService noIamAccess = None /\
      (@getGSAAPIResource plainLib sampleGSA).2 = Ret resource /\
      ServiceAccounts_GetIamPolicy noIamAccess resource = Err cause /\
      denied_wrapped
      = mkError "*fmt.wrapError"
          ("getting GSA " +:+ @Quote plainLib resource +:+ " IAMPolicy: "
             +:+ errText cause))).
Proof.
  apply (@ksaHasAccessToGSA_error plainLib noIamAccess samplePool "my-ns" "agent"
           sampleGSA false denied_wrapped).
  vm_compute. reflexivity.
Defined.

Lemma ksaHasAccessToGSA_monotone_witness :
  (@ksaHasAccessToGSA plainLib (laptop widerPolicy) samplePool "my-ns" "agent" sampleGSA).2
  = Ret (true, None).
Proof.
  apply (proj1 (@ksaHasAccessToGSA_monotone plainLib
                  (laptop grantingPolicy) (laptop widerPolicy)
                  samplePool "my-ns" "agent" sampleGSA sampleResource
                  grantingPolicy widerPolicy
                  eq_refl eq_refl eq_refl eq_refl eq_refl)).
  - intros binding Hin. apply list_elem_of_singleton in Hin. subst binding.
    apply list_elem_of_further, list_elem_of_here.
  - vm_compute. reflexivity.
Defined.

Lemma ksaHasAccessToGSA_no_at_witness :
  @ksaHasAccessToGSA plainLib (laptop grantingPolicy) samplePool "my-ns" "agent" "default"
  = ([EvIamNewService], Panicked (IndexOutOfRange 1 1)).
Proof.
  apply (@ksaHasAccessToGSA_no_at plainLib (laptop grantingPolicy)
           samplePool "my-ns" "agent" "default").
  reflexivity.
Defined.

Lemma getGSAsRolesOnProject_errors_witness :
  @getGSAsRolesOnProject plainLib noIamAccess "proj" sampleGSA
  = ([EvCloudResourceManagerNewService; EvGetProjectIamPolicy "proj"],
     Ret ([], Some (mkError "*fmt.wrapError"
                      ("getting Project " +:+ @Quote plainLib "proj" +:+ " IAMPolicy: "
                         +:+ errText denied)))).
Proof.
  apply (proj2 (@getGSAsRolesOnProject_errors plainLib noIamAccess "proj" sampleGSA));
    reflexivity.
Defined.

Lemma main_ksa_reads_no_pod_witness :
  never (EvPodsGet "my-ns" "my-pod") (@main plainLib (laptop grantingPolicy) ksaFlags).
Proof.
  apply (@main_ksa_reads_no_pod plainLib (laptop grantingPolicy) ksaFlags). reflexivity.
Defined.


Lemma main_stops_without_annotation_witness :
  ends_with (EvServiceAccountsGet "my-ns" "agent")
    (Fatal ("Error getting the KSA's WI annotation: "
              +:+ "ksa does not have the WI annotation, "
              +:+ @Quote plainLib "iam.gke.io/gcp-service-account"))
    (@main plainLib unannotated ksaFlags).
Proof.
  apply (@main_stops_without_annotation plainLib unannotated ksaFlags sampleConfig
           "agent") with (annotations := ∅).
  - left. split; [discriminate | reflexivity].
  - reflexivity.
  - reflexivity.
  - reflexivity.
  - reflexivity.
  - reflexivity.
Defined.

Lemma main_asks_cluster_witness :
  in_trace (EvClustersGet "projects/proj/locations/us-central1/clusters/c1")
           (@main plainLib noKubeconfig clusterFlags).
Proof.
  apply (@main_asks_cluster plainLib noKubeconfig clusterFlags sampleConfig "agent")
    with (gsa := sampleGSA) (p := "") (l := "") (n := "")
         (kerr := Some (mkError "*fs.PathError"
                          "open /home/u/.kube/config: permission denied")).
  - left. split; [discriminate | reflexivity].
  - reflexivity.
  - reflexivity.
  - reflexivity.
  - reflexivity.
  - reflexivity.
  - reflexivity.
Defined.

Lemma main_panics_without_workload_identity_witness :
  (@main plainLib noWorkloadIdentity ksaFlags).2 = Panicked NilDereference.
Proof.
  apply (@main_panics_without_workload_identity plainLib noWorkloadIdentity ksaFlags
           sampleConfig "agent") with (gsa := sampleGSA) (p := "proj")
           (l := "us-central1") (n := "c1") (kerr := None) (cluster := mkCluster None).
  - left. split; [discriminate | reflexivity].
  - reflexivity.
  - reflexivity.
  - reflexivity.
  - reflexivity.
  - reflexivity.
  - reflexivity.
  - reflexivity.
  - reflexivity.
Defined.

Lemma main_prints_roles_witness :
  ends_with
    (EvPrint (@roles_report plainLib podFlags "agent" sampleGSA "other-project"
                ["roles/storage.admin"; "roles/pubsub.editor"]))
    (Ret ()) (@main plainLib (laptop grantingPolicy) podFlags).
Proof.
  apply (@main_prints_roles plainLib (laptop grantingPolicy) podFlags sampleConfig
           "agent") with (wiPool := samplePool) (p := "proj") (l := "us-central1")
           (n := "c1") (kerr := None).
  - right. split; [reflexivity | discriminate].
  - reflexivity.
  - reflexivity.
  - reflexivity.
  - reflexivity.
  - reflexivity.
  - reflexivity.
  - vm_compute. reflexivity.
  - reflexivity.
  - vm_compute. reflexivity.
Defined.

Lemma main_panics_on_bad_annotation_witness :
  (@main plainLib misannotated ksaFlags).2 = Panicked (IndexOutOfRange 1 1).
Proof.
  apply (@main_panics_on_bad_annotation plainLib misannotated ksaFlags sampleConfig
           "agent") with (gsa := "default") (wiPool := samplePool) (p := "proj")
           (l := "us-central1") (n := "c1") (kerr := None).
  - left. split; [discriminate | reflexivity].
  - reflexivity.
  - reflexivity.
  - reflexivity.
  - vm_compute. reflexivity.
  - reflexivity.
  - reflexivity.
  - reflexivity.
  - reflexivity.
Defined.
